(** * Chart renderers of finrobot/functional/charting.py

    A shallow embedding of the three chart functions

      - [MplFinanceUtils.plot_stock_price_chart]
      - [ReportChartUtils.get_share_performance]
      - [ReportChartUtils.get_pe_eps_performance]

    together with the parts of pandas, datetime and matplotlib they touch.
    The data provider (YFinanceUtils), the file system and the plotting
    libraries are external: their answers come from an environment record,
    and every call the renderers make to them is recorded, with its
    arguments, in a trace.  Two effects of the libraries are part of the
    model, because the renderers' results depend on them: the file name
    matplotlib gives an image (an extension-less name gets ".png"), and
    matplotlib's global rcParams, which plt.rcParams.update and mpf.plot
    change and under which each later plotting call is drawn.

    The module is read from its compiled form,
    finrobot/functional/__pycache__/charting.cpython-310.pyc: the Python
    expressions quoted in the comments are the ones its bytecode evaluates,
    in the order it evaluates them, with the constants of its constant
    tables (365 days, 365.25, "^GSPC", font size 20, figure size 14 by 7). *)

From Stdlib Require Import ZArith QArith Qreduction List String Ascii Bool Lia.
From Stdlib Require Import DecimalString.
From Stdlib Require Import Sorted.
Import ListNotations.

Local Open Scope string_scope.
Local Open Scope list_scope.
Local Open Scope Z_scope.

Infix "+++" := String.append (right associativity, at level 60).

(* ------------------------------------------------------------------ *)
(** ** Numbers

    Prices and earnings are numpy float64 values.  The model keeps the
    special values of IEEE 754 (the infinities and NaN) and the rules that
    produce them; a finite value is an exact rational kept in lowest terms,
    so rounding of finite results is not modelled, and the two zeros are
    one.  Division never raises: numpy returns an infinity or NaN. *)

Module Num.

Inductive num : Type :=
| Fin (q : Q)
| PInf
| NInf
| NaN.

Definition fin (q : Q) : num := Fin (Qred q).

Definition of_Z (z : Z) : num := Fin (inject_Z z).

Definition isna (x : num) : bool :=
  match x with NaN => true | _ => false end.

Definition is_zero (q : Q) : bool := (Qnum q =? 0)%Z.
Definition is_neg (q : Q) : bool := (Qnum q <? 0)%Z.

Definition neg (x : num) : num :=
  match x with
  | Fin q => fin (- q)
  | PInf => NInf
  | NInf => PInf
  | NaN => NaN
  end.

Definition sub (a b : num) : num :=
  match a, b with
  | NaN, _ | _, NaN => NaN
  | Fin x, Fin y => fin (x - y)
  | Fin _, PInf => NInf
  | Fin _, NInf => PInf
  | PInf, PInf => NaN
  | PInf, _ => PInf
  | NInf, NInf => NaN
  | NInf, _ => NInf
  end.

(** An infinity times or over a finite number: the sign of the finite
    operand decides. *)
Definition signed (inf : num) (q : Q) : num :=
  if is_neg q then neg inf else inf.

Definition mul (a b : num) : num :=
  match a, b with
  | NaN, _ | _, NaN => NaN
  | Fin x, Fin y => fin (x * y)
  | Fin x, (PInf | NInf) => if is_zero x then NaN else signed b x
  | (PInf | NInf), Fin y => if is_zero y then NaN else signed a y
  | PInf, PInf | NInf, NInf => PInf
  | PInf, NInf | NInf, PInf => NInf
  end.

Definition div (a b : num) : num :=
  match a, b with
  | NaN, _ | _, NaN => NaN
  | Fin x, Fin y =>
      if is_zero y
      then (if is_zero x then NaN else signed PInf x)
      else fin (x / y)
  | Fin _, (PInf | NInf) => Fin 0
  | (PInf | NInf), Fin y => signed a y
  | (PInf | NInf), (PInf | NInf) => NaN
  end.

End Num.

Import Num.

(* ------------------------------------------------------------------ *)
(** ** Exceptions and results *)

(** The error kinds of the specification's taxonomy. *)
Inductive ErrorKind : Type :=
| NoData
| InvalidConfig
| AlignmentFailure
| DivisionByZero
| WriteFailed.

(** Python exceptions.  [Classified k] stands for an error value of the
    taxonomy above; the others are the built-in exceptions that pandas,
    datetime and matplotlib raise, and [LibraryError] is any other exception
    of an external library. *)
Inductive PyExc : Type :=
| IndexError
| KeyError (key : string)
| ValueError (msg : string)
| TypeError
| OverflowError
| ZeroDivisionError
| LibraryError (name : string)
| Classified (k : ErrorKind).

Inductive outcome (A : Type) : Type :=
| Returned (a : A)
| Raised (e : PyExc).

Arguments Returned {A} a.
Arguments Raised {A} e.

Definition obind {A B : Type} (o : outcome A) (f : A -> outcome B) : outcome B :=
  match o with
  | Returned a => f a
  | Raised e => Raised e
  end.

(* ------------------------------------------------------------------ *)
(** ** Tables

    A time point is an integer on one time line.  A price table
    (pandas DataFrame indexed by date) is a list of rows in index order; a
    Series is a list of (index, value) pairs. *)

Record Row : Type := mkRow {
  date : Z;
  Open : num;
  High : num;
  Low : num;
  Close : num;
  Volume : num
}.

Definition DataFrame : Type := list Row.
Definition Series : Type := list (Z * num).

Definition index (s : Series) : list Z := map fst s.
Definition values (s : Series) : list num := map snd s.

(** [historical_data["Close"]] *)
Definition column_Close (df : DataFrame) : Series :=
  map (fun r => (date r, Close r)) df.

(** [s.iloc[0]] *)
Definition iloc0 (s : Series) : outcome num :=
  match s with
  | [] => Raised IndexError
  | (_, v) :: _ => Returned v
  end.

(** [(s - s.iloc[0]) / s.iloc[0] * 100], the expression that
    get_share_performance applies to each of its two close series. *)
Definition percent_change (s : Series) : outcome Series :=
  obind (iloc0 s) (fun first =>
  Returned (map (fun p => (fst p, mul (div (sub (snd p) first) first) (of_Z 100))) s)).

(** [s.index.min()] and [s.index.max()]; the renderer takes them of a
    series that has a first element. *)
Definition index_min (s : Series) : Z :=
  match index s with
  | [] => 0
  | d :: ds => fold_left Z.min ds d
  end.

Definition index_max (s : Series) : Z :=
  match index s with
  | [] => 0
  | d :: ds => fold_left Z.max ds d
  end.

(* ------------------------------------------------------------------ *)
(** ** Python dictionaries

    Insertion-ordered: assigning to a key that is present replaces the
    value in place, a new key goes to the end. *)

Section Dict.
Context {K V : Type} (eqb : K -> K -> bool).

Fixpoint dict_set (k : K) (v : V) (d : list (K * V)) : list (K * V) :=
  match d with
  | [] => [(k, v)]
  | (k', v') :: t =>
      if eqb k k' then (k, v) :: t else (k', v') :: dict_set k v t
  end.

Fixpoint dict_find (k : K) (d : list (K * V)) : option V :=
  match d with
  | [] => None
  | (k', v') :: t => if eqb k k' then Some v' else dict_find k t
  end.
End Dict.

(** [d[key]] on a dictionary or a row-labelled table with string keys. *)
Definition getitem {V : Type} (d : list (string * V)) (key : string) : outcome V :=
  match dict_find String.eqb key d with
  | Some v => Returned v
  | None => Raised (KeyError key)
  end.

(* ------------------------------------------------------------------ *)
(** ** datetime *)

(** [timedelta(days=n)] *)
Definition timedelta (days : Z) : outcome Z :=
  if Z.abs days <=? 999999999 then Returned days else Raised OverflowError.

(** [d - delta] on a datetime counted in days (proleptic ordinal). *)
Definition datetime_sub (d delta : Z) : outcome Z :=
  let r := d - delta in
  if (1 <=? r) && (r <=? 3652059) then Returned r else Raised OverflowError.

(** Python's [round] of the quotient n/d (d > 0): nearest integer, a tie
    goes to the even neighbour. *)
Definition round_half_even (n d : Z) : Z :=
  let q := n / d in
  match (2 * (n mod d) ?= d) with
  | Lt => q
  | Gt => q + 1
  | Eq => if Z.even q then q else q + 1
  end.

(** [round((years + 1) * 365.25)], with 365.25 = 1461/4. *)
Definition lookback_days (years : Z) : Z :=
  round_half_even ((years + 1) * 1461) 4.

(* ------------------------------------------------------------------ *)
(** ** pandas lookups on the price table *)

Definition row_isna (r : Row) : bool :=
  isna (Open r) || isna (High r) || isna (Low r) || isna (Close r) || isna (Volume r).

Definition nan_row (d : Z) : Row := mkRow d NaN NaN NaN NaN NaN.

(** [d in df.index] *)
Definition in_index (d : Z) (df : DataFrame) : bool :=
  existsb (fun r => date r =? d) df.

Fixpoint is_monotonic_increasing (l : list Z) : bool :=
  match l with
  | a :: (b :: _) as t => (a <=? b) && is_monotonic_increasing t
  | _ => true
  end.

(** [df.loc[d]] *)
Definition loc (df : DataFrame) (d : Z) : outcome Row :=
  match find (fun r => date r =? d) df with
  | Some r => Returned r
  | None => Raised (KeyError "date")
  end.

(** The last row at or before [where_] that has no missing value. *)
Fixpoint asof_scan (df : DataFrame) (where_ : Z) (found : option Row) : option Row :=
  match df with
  | [] => found
  | r :: t =>
      if (date r <=? where_) && negb (row_isna r)
      then asof_scan t where_ (Some r)
      else asof_scan t where_ found
  end.

(** [df.asof(where_)] for a scalar [where_], in the order pandas proceeds:
    an index that is not sorted raises ValueError; then [self.index[0]] is
    read, which raises IndexError on a table without rows; the answer is the
    last row at or before [where_] without a missing value, and a row of NaN
    when nothing qualifies.  The index and [where_] are timestamps of one
    kind (both with a time zone, as the provider returns them and as
    [pd.to_datetime(..., utc=True)] makes the filing dates); comparing a
    zone-less index with them is a TypeError of pandas that tables of this
    type do not represent. *)
Definition asof (df : DataFrame) (where_ : Z) : outcome Row :=
  if is_monotonic_increasing (map date df)
  then match df with
       | [] => Raised IndexError
       | _ :: _ =>
           Returned (match asof_scan df where_ None with
                     | Some r => r
                     | None => nan_row where_
                     end)
       end
  else Raised (ValueError "asof requires a sorted index").

(** An income statement: line-item label to the series of its values over
    the filing dates (the table's columns). *)
Definition IncomeStmt : Type := list (string * Series).

(** The [for date in dates] loop of get_pe_eps_performance. *)
Fixpoint results_loop (historical_data : DataFrame) (dates : list Z)
    (results : list (Z * num)) : outcome (list (Z * num)) :=
  match dates with
  | [] => Returned results
  | d :: rest =>
      obind (if negb (in_index d historical_data)
             then asof historical_data d
             else loc historical_data d)
        (fun close_price =>
           results_loop historical_data rest
             (dict_set Z.eqb d (Close close_price) results))
  end.

(** [[p / e for p, e in zip(results.values(), eps.values[::-1])]] *)
Definition pe_ratios (results : list (Z * num)) (eps : Series) : list num :=
  map (fun pe => div (fst pe) (snd pe))
      (combine (map snd results) (rev (values eps))).

(** The alignment of get_pe_eps_performance, from the fetched tables to the
    three plotted lists: filing dates, P/E values, EPS values. *)
Definition pe_eps_series (historical_data : DataFrame) (eps : Series)
  : outcome (list Z * list num * list num) :=
  let dates := rev (index eps) in
  obind (results_loop historical_data dates []) (fun results =>
  Returned (rev (index eps), pe_ratios results eps, rev (values eps))).

(* ------------------------------------------------------------------ *)
(** ** Calls to the outside, and the world they act on *)

Inductive Value : Type :=
| VNone
| VBool (b : bool)
| VInt (z : Z)
| VStr (s : string)
| VInts (l : list Z)
| VTimes (l : list Z)
| VNums (l : list num)
| VStrs (l : list string)
| VDict (l : list (string * Z))
| VSeries (s : Series)
| VFrame (df : DataFrame).

Definition is_None (v : Value) : bool :=
  match v with VNone => true | _ => false end.

Record Event : Type := Call {
  fn : string;
  args : list Value;
  kwargs : list (string * Value)
}.

(** The process state the renderers act on: matplotlib's global rcParams
    and the calls made so far, oldest first. *)
Record World : Type := mkWorld {
  rcParams : list (string * Z);
  calls : list Event
}.

(** What the external collaborators answer.  [mpf.plot] also rewrites
    matplotlib's global rcParams (it applies its style to them and does not
    restore them): its answer comes with the rcParams it leaves, and may
    depend on the ones it finds. *)
Record Env : Type := mkEnv {
  get_stock_data : string -> string -> string -> outcome DataFrame;
  get_stock_info : string -> outcome (list (string * string));
  get_income_stmt : string -> outcome IncomeStmt;
  isdir : string -> bool;
  mpf_plot : DataFrame -> list (string * Value) -> list (string * Z) ->
             outcome unit * list (string * Z);
  savefig : string -> outcome unit;
  strptime : string -> string -> outcome Z;
  strftime : Z -> string -> string;
  Timestamp_strftime : Z -> string -> string;
  DateOffset_months : Z -> Z -> Z
}.

Definition M (A : Type) : Type := World -> outcome A * World.

Definition ret {A : Type} (a : A) : M A := fun w => (Returned a, w).

Definition bind {A B : Type} (m : M A) (f : A -> M B) : M B :=
  fun w =>
    match m w with
    | (Returned a, w') => f a w'
    | (Raised e, w') => (Raised e, w')
    end.

Definition lift {A : Type} (o : outcome A) : M A := fun w => (o, w).

Definition log (f : string) (a : list Value) (kw : list (string * Value)) : M unit :=
  fun w => (Returned tt, mkWorld (rcParams w) (calls w ++ [Call f a kw])).

Declare Scope m_scope.
Delimit Scope m_scope with m.
Notation "x <- c1 ;; c2" := (bind c1 (fun x => c2))
  (at level 61, c1 at next level, right associativity) : m_scope.
Notation "c1 ;; c2" := (bind c1 (fun _ => c2))
  (at level 61, right associativity) : m_scope.
Local Open Scope m_scope.

(** A call whose answer (or exception) comes from the outside and which
    leaves rcParams alone: the provider, the file system and the pyplot and
    axes calls of the report charts. *)
Definition external {A : Type} (f : string) (a : list Value)
    (kw : list (string * Value)) (answer : outcome A) : M A :=
  log f a kw ;; lift answer.

(** [mpf.plot(data, **kw)]: answered from the outside, under and upon the
    rcParams in force. *)
Definition mpf_plot_call (env : Env) (data : DataFrame)
    (kw : list (string * Value)) : M unit :=
  fun w =>
    let answer := mpf_plot env data kw (rcParams w) in
    (fst answer, mkWorld (snd answer) (calls w ++ [Call "mpf.plot" [VFrame data] kw])).

(** [plt.rcParams.update({key: v})] *)
Definition rcParams_update (key : string) (v : Z) : M unit :=
  fun w => (Returned tt,
            mkWorld (dict_set String.eqb key v (rcParams w))
                    (calls w ++ [Call "plt.rcParams.update" [VDict [(key, v)]] []])).

(** A [filing_date] argument: a string or a datetime. *)
Inductive date_arg : Type :=
| DateStr (s : string)
| DateTime (d : Z).

(** [if isinstance(filing_date, str): filing_date = datetime.strptime(...)] *)
Definition filing_datetime (env : Env) (filing_date : date_arg) : outcome Z :=
  match filing_date with
  | DateStr s => strptime env s "%Y-%m-%d"
  | DateTime d => Returned d
  end.

(** [str(n)] of an integer, as an f-string prints it. *)
Definition str_of_int (n : Z) : string := NilZero.string_of_int (Z.to_int n).

(** matplotlib's [plot(x, y)] raises when the two differ in length. *)
Definition plot_lengths (x : list Z) (y : list num) : outcome unit :=
  if Nat.eqb (List.length x) (List.length y)
  then Returned tt
  else Raised (ValueError "x and y must have same first dimension").

(* ------------------------------------------------------------------ *)
(** ** MplFinanceUtils.plot_stock_price_chart *)

(** The dictionary [params] of the function body. *)
Definition params (ticker_symbol save_path type style : string) (mav : Value)
    (show_nontrading : bool) : list (string * Value) :=
  [("type", VStr type);
   ("style", VStr style);
   ("title", VStr (ticker_symbol +++ " " +++ type +++ " chart"));
   ("ylabel", VStr "Price");
   ("volume", VBool true);
   ("ylabel_lower", VStr "Volume");
   ("mav", mav);
   ("show_nontrading", VBool show_nontrading);
   ("savefig", VStr save_path)].

(** [{k: v for k, v in params.items() if v is not None}] *)
Definition filtered_params (ticker_symbol save_path type style : string)
    (mav : Value) (show_nontrading : bool) : list (string * Value) :=
  filter (fun kv => negb (is_None (snd kv)))
         (params ticker_symbol save_path type style mav show_nontrading).

Definition plot_stock_price_chart (env : Env)
    (ticker_symbol start_date end_date save_path : string)
    (verbose : bool) (type style : string) (mav : Value)
    (show_nontrading : bool) : M string :=
  stock_data <- external "YFinanceUtils.get_stock_data"
                  [VStr ticker_symbol; VStr start_date; VStr end_date] []
                  (get_stock_data env ticker_symbol start_date end_date) ;;
  (if verbose then log "print" [VFrame stock_data] [] else ret tt) ;;
  let kw := filtered_params ticker_symbol save_path type style mav show_nontrading in
  mpf_plot_call env stock_data kw ;;
  ret (type +++ " chart saved to <img " +++ save_path +++ ">").

(* ------------------------------------------------------------------ *)
(** ** ReportChartUtils.get_share_performance *)

(** The local function [fetch_stock_data(ticker)]; [filing_date] is the
    variable it closes over. *)
Definition fetch_stock_data (env : Env) (filing_date : Z) (ticker : string) : M Series :=
  delta <- lift (timedelta 365) ;;
  start_dt <- lift (datetime_sub filing_date delta) ;;
  let start := strftime env start_dt "%Y-%m-%d" in
  let end_ := strftime env filing_date "%Y-%m-%d" in
  historical_data <- external "YFinanceUtils.get_stock_data"
                       [VStr ticker; VStr start; VStr end_] []
                       (get_stock_data env ticker start end_) ;;
  ret (column_Close historical_data).

Definition get_share_performance (env : Env) (ticker_symbol : string)
    (filing_date : date_arg) (save_path : string) : M string :=
  filing_date <- lift (filing_datetime env filing_date) ;;
  target_close <- fetch_stock_data env filing_date ticker_symbol ;;
  sp500_close <- fetch_stock_data env filing_date "^GSPC" ;;
  info <- external "YFinanceUtils.get_stock_info" [VStr ticker_symbol] []
            (get_stock_info env ticker_symbol) ;;
  company_change <- lift (percent_change target_close) ;;
  sp500_change <- lift (percent_change sp500_close) ;;
  let start_date := index_min company_change in
  let four_months := DateOffset_months env start_date 4 in
  let eight_months := DateOffset_months env start_date 8 in
  let end_date := index_max company_change in
  rcParams_update "font.size" 20 ;;
  log "plt.figure" [] [("figsize", VInts [14; 7])] ;;
  shortName <- lift (getitem info "shortName") ;;
  log "plt.plot" [VTimes (index company_change); VSeries company_change]
      [("label", VStr (shortName +++ " Change %")); ("color", VStr "blue")] ;;
  log "plt.plot" [VTimes (index sp500_change); VSeries sp500_change]
      [("label", VStr "S&P 500 Change %"); ("color", VStr "red")] ;;
  shortName <- lift (getitem info "shortName") ;;
  log "plt.title"
      [VStr (shortName +++ " vs S&P 500 - Change % Over the Past Year")] [] ;;
  log "plt.xlabel" [VStr "Date"] [] ;;
  log "plt.ylabel" [VStr "Change %"] [] ;;
  log "plt.xticks"
      [VTimes [start_date; four_months; eight_months; end_date];
       VStrs [Timestamp_strftime env start_date "%Y-%m";
              Timestamp_strftime env four_months "%Y-%m";
              Timestamp_strftime env eight_months "%Y-%m";
              Timestamp_strftime env end_date "%Y-%m"]] [] ;;
  log "plt.legend" [] [] ;;
  log "plt.grid" [VBool true] [] ;;
  log "plt.tight_layout" [] [] ;;
  let plot_path :=
    if isdir env save_path then save_path +++ "/stock_performance.png"
    else save_path in
  external "plt.savefig" [VStr plot_path] [] (savefig env plot_path) ;;
  log "plt.close" [] [] ;;
  ret ("last year stock performance chart saved to <img " +++ plot_path +++ ">").

(* ------------------------------------------------------------------ *)
(** ** ReportChartUtils.get_pe_eps_performance *)

Definition get_pe_eps_performance (env : Env) (ticker_symbol : string)
    (filing_date : date_arg) (years : Z) (save_path : option string) : M string :=
  filing_date <- lift (filing_datetime env filing_date) ;;
  ss <- external "YFinanceUtils.get_income_stmt" [VStr ticker_symbol] []
          (get_income_stmt env ticker_symbol) ;;
  eps <- lift (getitem ss "Diluted EPS") ;;
  let days := lookback_days years in
  delta <- lift (timedelta days) ;;
  start_dt <- lift (datetime_sub filing_date delta) ;;
  let start := strftime env start_dt "%Y-%m-%d" in
  let end_ := strftime env filing_date "%Y-%m-%d" in
  historical_data <- external "YFinanceUtils.get_stock_data"
                       [VStr ticker_symbol; VStr start; VStr end_] []
                       (get_stock_data env ticker_symbol start end_) ;;
  aligned <- lift (pe_eps_series historical_data eps) ;;
  let dates := fst (fst aligned) in
  let pe := snd (fst aligned) in
  let eps := snd aligned in
  info <- external "YFinanceUtils.get_stock_info" [VStr ticker_symbol] []
            (get_stock_info env ticker_symbol) ;;
  log "plt.subplots" [] [("figsize", VInts [14; 7])] ;;
  rcParams_update "font.size" 20 ;;
  log "ax1.set_xlabel" [VStr "Date"] [] ;;
  log "ax1.set_ylabel" [VStr "PE Ratio"] [("color", VStr "tab:blue")] ;;
  external "ax1.plot" [VTimes dates; VNums pe] [("color", VStr "tab:blue")]
           (plot_lengths dates pe) ;;
  log "ax1.tick_params" [] [("axis", VStr "y"); ("labelcolor", VStr "tab:blue")] ;;
  log "ax1.grid" [VBool true] [] ;;
  log "ax1.twinx" [] [] ;;
  log "ax2.set_ylabel" [VStr "EPS"] [("color", VStr "tab:red")] ;;
  external "ax2.plot" [VTimes dates; VNums eps] [("color", VStr "tab:red")]
           (plot_lengths dates eps) ;;
  log "ax2.tick_params" [] [("axis", VStr "y"); ("labelcolor", VStr "tab:red")] ;;
  shortName <- lift (getitem info "shortName") ;;
  log "plt.title"
      [VStr (shortName +++ " PE Ratios and EPS Over the Past "
                       +++ str_of_int years +++ " Years")] [] ;;
  log "plt.xticks" [] [("rotation", VInt 45)] ;;
  log "plt.xticks"
      [VTimes dates; VStrs (map (fun d => Timestamp_strftime env d "%Y-%m") dates)] [] ;;
  log "plt.tight_layout" [] [] ;;
  save_path <- lift (match save_path with
                     | Some p => Returned p
                     | None => Raised TypeError
                     end) ;;
  let plot_path :=
    if isdir env save_path then save_path +++ "/pe_performance.png"
    else save_path in
  external "plt.savefig" [VStr plot_path] [] (savefig env plot_path) ;;
  log "plt.close" [] [] ;;
  ret ("pe performance chart saved to <img " +++ plot_path +++ ">").

(* ------------------------------------------------------------------ *)
(** ** Reading the trace *)

Definition is_call (name : string) (e : Event) : bool := String.eqb (fn e) name.

(** The file names handed to an image writer: the argument of [plt.savefig]
    and the [savefig] option of [mpf.plot].  This is what the renderer asks
    for; the file that matplotlib then writes is [image_file] of it. *)
Definition image_target (e : Event) : list string :=
  if String.eqb (fn e) "plt.savefig" then
    match args e with
    | [VStr p] => [p]
    | _ => []
    end
  else if String.eqb (fn e) "mpf.plot" then
    match dict_find String.eqb "savefig" (kwargs e) with
    | Some (VStr p) => [p]
    | _ => []
    end
  else [].

Definition image_targets (t : list Event) : list string := flat_map image_target t.

(** [Figure.savefig(fname)], in which [plt.savefig] and [mpf.plot] with a
    [savefig] option both end, takes the image format from the extension of
    [fname], [os.path.splitext(fname)[1][1:]]; when that is empty it takes
    the default format, png, and writes to [fname.rstrip('.') + '.png'].
    Paths are POSIX paths, with "/" between components. *)

Fixpoint has_slash (p : string) : bool :=
  match p with
  | EmptyString => false
  | String c t => Ascii.eqb c "/"%char || has_slash t
  end.

(** The part of [p] after its last "/". *)
Fixpoint last_component (p : string) : string :=
  match p with
  | EmptyString => EmptyString
  | String c t =>
      if has_slash t then last_component t
      else if Ascii.eqb c "/"%char then t else p
  end.

Fixpoint strip_leading_dots (s : string) : string :=
  match s with
  | EmptyString => EmptyString
  | String c t => if Ascii.eqb c "."%char then strip_leading_dots t else s
  end.

(** The suffix of [s] that starts at its last ".". *)
Fixpoint last_dot_suffix (s : string) : option string :=
  match s with
  | EmptyString => None
  | String c t =>
      match last_dot_suffix t with
      | Some e => Some e
      | None => if Ascii.eqb c "."%char then Some s else None
      end
  end.

(** [os.path.splitext(p)[1]]: from the last "." of the last component, the
    leading dots of the component not counted; empty when there is none. *)
Definition splitext_ext (p : string) : string :=
  match last_dot_suffix (strip_leading_dots (last_component p)) with
  | Some e => e
  | None => EmptyString
  end.

(** [os.path.splitext(p)[1][1:]] is not empty. *)
Definition has_extension (p : string) : bool :=
  Nat.ltb 1 (String.length (splitext_ext p)).

(** [s.rstrip('.')] *)
Fixpoint rstrip_dots (s : string) : string :=
  match s with
  | EmptyString => EmptyString
  | String c t =>
      match rstrip_dots t with
      | EmptyString => if Ascii.eqb c "."%char then EmptyString else String c EmptyString
      | t' => String c t'
      end
  end.

(** The file a successful image request for [fname] writes. *)
Definition image_file (fname : string) : string :=
  if has_extension fname then fname else rstrip_dots fname +++ ".png".

(** The files written by the image requests of a trace, all of which
    succeeded. *)
Definition image_files (t : list Event) : list string := map image_file (image_targets t).

(** The (symbol, start, end) triples asked of the price provider. *)
Definition price_request (e : Event) : list (string * string * string) :=
  if String.eqb (fn e) "YFinanceUtils.get_stock_data" then
    match args e with
    | [VStr sym; VStr s; VStr e'] => [(sym, s, e')]
    | _ => []
    end
  else [].

Definition price_requests (t : list Event) : list (string * string * string) :=
  flat_map price_request t.

(** The calls to the plotting libraries (everything but the provider and
    [print]). *)
Definition is_plot_call (e : Event) : bool :=
  negb (String.eqb (fn e) "YFinanceUtils.get_stock_data"
        || String.eqb (fn e) "YFinanceUtils.get_stock_info"
        || String.eqb (fn e) "YFinanceUtils.get_income_stmt"
        || String.eqb (fn e) "print").

(** The series drawn by [plt.plot], with their keyword arguments. *)
Definition plotted_one (e : Event) : list (Series * list (string * Value)) :=
  if String.eqb (fn e) "plt.plot" then
    match args e with
    | [VTimes _; VSeries s] => [(s, kwargs e)]
    | _ => []
    end
  else [].

Definition plotted_series (t : list Event) : list (Series * list (string * Value)) :=
  flat_map plotted_one t.




(** What is drawn: the calls to the plotting libraries, each with the
    rcParams in force when it is made.  matplotlib reads rcParams when a
    figure, an axes or a text is created, not when the image is saved, so a
    call made before [plt.rcParams.update] is drawn under the old values.
    The rcParams are followed through the [plt.rcParams.update] calls of the
    trace, the only changes the two report charts make to them. *)
Fixpoint drawn (rc : list (string * Z)) (t : list Event)
  : list (Event * list (string * Z)) :=
  match t with
  | [] => []
  | c :: rest =>
      if is_call "plt.rcParams.update" c then
        match args c with
        | [VDict l] =>
            drawn (fold_left (fun d kv => dict_set String.eqb (fst kv) (snd kv) d) l rc)
                  rest
        | _ => drawn rc rest
        end
      else if is_plot_call c then (c, rc) :: drawn rc rest
      else drawn rc rest
  end.

(** The (dates, values) pairs drawn on the P/E axis. *)
Definition pe_points_one (e : Event) : list (list Z * list num) :=
  if String.eqb (fn e) "ax1.plot" then
    match args e with
    | [VTimes x; VNums y] => [(x, y)]
    | _ => []
    end
  else [].

Definition pe_points (t : list Event) : list (list Z * list num) :=
  flat_map pe_points_one t.

(* ------------------------------------------------------------------ *)
(** ** The calls of a run

    The events a run of each renderer appends to the trace, written as
    functions of the values the run computes. *)

Definition price_chart_fetch (ticker_symbol start_date end_date : string) : Event :=
  Call "YFinanceUtils.get_stock_data"
       [VStr ticker_symbol; VStr start_date; VStr end_date] [].

Definition price_chart_print (verbose : bool) (df : DataFrame) : list Event :=
  if verbose then [Call "print" [VFrame df] []] else [].

Definition price_chart_plot (df : DataFrame) (kw : list (string * Value)) : Event :=
  Call "mpf.plot" [VFrame df] kw.

Definition window_fetch (env : Env) (ticker : string) (start d : Z) : Event :=
  Call "YFinanceUtils.get_stock_data"
       [VStr ticker; VStr (strftime env start "%Y-%m-%d");
        VStr (strftime env d "%Y-%m-%d")] [].

(** The path the image goes to. *)
Definition stock_performance_path (env : Env) (save_path : string) : string :=
  if isdir env save_path then save_path +++ "/stock_performance.png" else save_path.

(** The plotting calls of a run, given the company name and the two
    normalized series. *)
Definition share_plot_calls (env : Env) (name : string)
    (company_change sp500_change : Series) (plot_path : string) : list Event :=
  let start_date := index_min company_change in
  let four_months := DateOffset_months env start_date 4 in
  let eight_months := DateOffset_months env start_date 8 in
  let end_date := index_max company_change in
  [ Call "plt.rcParams.update" [VDict [("font.size", 20)]] [];
    Call "plt.figure" [] [("figsize", VInts [14; 7])];
    Call "plt.plot" [VTimes (index company_change); VSeries company_change]
         [("label", VStr (name +++ " Change %")); ("color", VStr "blue")];
    Call "plt.plot" [VTimes (index sp500_change); VSeries sp500_change]
         [("label", VStr "S&P 500 Change %"); ("color", VStr "red")];
    Call "plt.title"
         [VStr (name +++ " vs S&P 500 - Change % Over the Past Year")] [];
    Call "plt.xlabel" [VStr "Date"] [];
    Call "plt.ylabel" [VStr "Change %"] [];
    Call "plt.xticks"
         [VTimes [start_date; four_months; eight_months; end_date];
          VStrs [Timestamp_strftime env start_date "%Y-%m";
                 Timestamp_strftime env four_months "%Y-%m";
                 Timestamp_strftime env eight_months "%Y-%m";
                 Timestamp_strftime env end_date "%Y-%m"]] [];
    Call "plt.legend" [] [];
    Call "plt.grid" [VBool true] [];
    Call "plt.tight_layout" [] [];
    Call "plt.savefig" [VStr plot_path] [];
    Call "plt.close" [] [] ].

Definition pe_performance_path (env : Env) (save_path : string) : string :=
  if isdir env save_path then save_path +++ "/pe_performance.png" else save_path.

Definition pe_plot_calls (env : Env) (name : string) (years : Z)
    (dates : list Z) (pe eps : list num) (plot_path : string) : list Event :=
  [ Call "plt.subplots" [] [("figsize", VInts [14; 7])];
    Call "plt.rcParams.update" [VDict [("font.size", 20)]] [];
    Call "ax1.set_xlabel" [VStr "Date"] [];
    Call "ax1.set_ylabel" [VStr "PE Ratio"] [("color", VStr "tab:blue")];
    Call "ax1.plot" [VTimes dates; VNums pe] [("color", VStr "tab:blue")];
    Call "ax1.tick_params" [] [("axis", VStr "y"); ("labelcolor", VStr "tab:blue")];
    Call "ax1.grid" [VBool true] [];
    Call "ax1.twinx" [] [];
    Call "ax2.set_ylabel" [VStr "EPS"] [("color", VStr "tab:red")];
    Call "ax2.plot" [VTimes dates; VNums eps] [("color", VStr "tab:red")];
    Call "ax2.tick_params" [] [("axis", VStr "y"); ("labelcolor", VStr "tab:red")];
    Call "plt.title"
         [VStr (name +++ " PE Ratios and EPS Over the Past "
                     +++ str_of_int years +++ " Years")] [];
    Call "plt.xticks" [] [("rotation", VInt 45)];
    Call "plt.xticks"
         [VTimes dates;
          VStrs (map (fun d => Timestamp_strftime env d "%Y-%m") dates)] [];
    Call "plt.tight_layout" [] [];
    Call "plt.savefig" [VStr plot_path] [];
    Call "plt.close" [] [] ].

(* ------------------------------------------------------------------ *)
(** ** Properties, in the words of the claims *)

(** A computation is oblivious when its result and the calls it makes do
    not depend on the world it starts in. *)
Definition oblivious {A : Type} (m : M A) : Prop :=
  exists (r : outcome A) (ev : list Event)
         (rc : list (string * Z) -> list (string * Z)),
    forall w, m w = (r, mkWorld (rc (rcParams w)) (calls w ++ ev)).

(** An exception that carries one of the specification's error kinds. *)
Definition classified (e : PyExc) : bool :=
  match e with
  | Classified _ => true
  | _ => false
  end.

(** An answer that is not such an exception. *)
Definition unclassified {A : Type} (o : outcome A) : Prop :=
  forall e, o = Raised e -> classified e = false.

(** No collaborator answers with one. *)
Definition collaborators_unclassified (env : Env) : Prop :=
  (forall sym s e, unclassified (get_stock_data env sym s e)) /\
  (forall sym, unclassified (get_stock_info env sym)) /\
  (forall sym, unclassified (get_income_stmt env sym)) /\
  (forall df kw rc, unclassified (fst (mpf_plot env df kw rc))) /\
  (forall p, unclassified (savefig env p)) /\
  (forall s f, unclassified (strptime env s f)).

(** No run of [m] ends in one. *)
Definition raises_unclassified {A : Type} (m : M A) : Prop :=
  forall w, unclassified (fst (m w)).

(** What the claim asks of a normalized series [out] of the close series
    [close]: entry i is (close[i] - close[0]) / close[0] * 100 at the same
    date, and the entry at the first date is 0 when the first close is a
    finite number other than zero. *)
Definition percent_of (close out : Series) : Prop :=
  List.length out = List.length close /\
  (forall i d c d0 c0,
      nth_error close i = Some (d, c) ->
      nth_error close 0 = Some (d0, c0) ->
      nth_error out i = Some (d, mul (div (sub c c0) c0) (of_Z 100))) /\
  (forall d0 q,
      nth_error close 0 = Some (d0, Fin q) ->
      ~ (q == 0)%Q ->
      nth_error out 0 = Some (d0, of_Z 0)).

(** The close matched to a filing date F, in the words of the claim: the
    close of the row dated F when there is one; otherwise the close of the
    most recent row at or before F among the rows without a missing value;
    NaN when no such row exists. *)
Definition matched_close (hist : DataFrame) (F : Z) (close : num) : Prop :=
  (exists r, In r hist /\ date r = F /\ close = Close r) \/
  ((forall r, In r hist -> date r <> F) /\
   ((exists r, In r hist /\ date r <= F /\ row_isna r = false /\
               (forall r', In r' hist -> date r' <= F -> row_isna r' = false ->
                           date r' <= date r) /\
               close = Close r) \/
    ((forall r, In r hist -> date r <= F -> row_isna r = true) /\ close = NaN))).

(* ------------------------------------------------------------------ *)
(** ** A concrete environment for examples *)

Definition demo_row (d c : Z) : Row :=
  mkRow d (of_Z c) (of_Z c) (of_Z c) (of_Z c) (of_Z 1000).

Definition demo_prices (sym : string) : DataFrame :=
  if String.eqb sym "^GSPC"
  then [demo_row 10 100; demo_row 20 102; demo_row 30 99]
  else if String.eqb sym "ZERO"
  then [demo_row 10 0; demo_row 20 1]
  else if String.eqb sym "NONE"
  then []
  else [demo_row 10 50; demo_row 20 55; demo_row 30 45].

Definition demo_income (sym : string) : IncomeStmt :=
  if String.eqb sym "EARLY"
  then [("Diluted EPS", [(5, of_Z 2)])]
  else if String.eqb sym "ZEROEPS"
  then [("Diluted EPS", [(30, of_Z 0)])]
  else [("Total Revenue", [(30, of_Z 900); (25, of_Z 800); (10, of_Z 700)]);
        ("Diluted EPS", [(30, of_Z 3); (25, of_Z 5); (10, of_Z 2)])].

Definition demo_env : Env :=
  mkEnv (fun sym _ _ => Returned (demo_prices sym))
        (fun _ => Returned [("shortName", "Apple Inc.")])
        (fun sym => Returned (demo_income sym))
        (fun p => String.eqb p "out")
        (fun _ _ rc => (Returned tt, dict_set String.eqb "axes.grid" 1 rc))
        (fun _ => Returned tt)
        (fun _ _ => Returned 738000)
        (fun d _ => str_of_int d)
        (fun d _ => str_of_int d)
        (fun d n => d + 30 * n).

Definition demo_world : World := mkWorld [] [].

(** A process in which matplotlib has its default font size. *)
Definition demo_world_fresh : World := mkWorld [("font.size", 10)] [].

(* ------------------------------------------------------------------ *)
(** ** Definitions for the further properties *)

(** No run of [m] makes a call selected by [f]. *)
Definition silent {A : Type} (f : Event -> bool) (m : M A) : Prop :=
  forall w, exists ev,
    calls (snd (m w)) = calls w ++ ev /\ forallb (fun c => negb (f c)) ev = true.

(** A run of [m] that raises has made no call selected by [f]. *)
Definition only_on_return {A : Type} (f : Event -> bool) (m : M A) : Prop :=
  forall w,
    (exists a, fst (m w) = Returned a) \/
    (exists ev,
        calls (snd (m w)) = calls w ++ ev /\
        forallb (fun c => negb (f c)) ev = true).

(** An environment in which the image cannot be written. *)
Definition demo_env_unwritable : Env :=
  mkEnv (get_stock_data demo_env) (get_stock_info demo_env)
        (get_income_stmt demo_env) (isdir demo_env) (mpf_plot demo_env)
        (fun _ => Raised (LibraryError "PermissionError"))
        (strptime demo_env) (strftime demo_env) (Timestamp_strftime demo_env)
        (DateOffset_months demo_env).

(** An environment whose price provider is unreachable. *)
Definition demo_env_offline : Env :=
  mkEnv (fun _ _ _ => Raised (LibraryError "ConnectionError"))
        (get_stock_info demo_env) (get_income_stmt demo_env) (isdir demo_env)
        (mpf_plot demo_env) (savefig demo_env) (strptime demo_env)
        (strftime demo_env) (Timestamp_strftime demo_env)
        (DateOffset_months demo_env).

(* ------------------------------------------------------------------ *)
(** * Proofs *)

(* ------------------------------------------------------------------ *)
(** ** The normalization on the specification's example *)

Example percent_change_benchmark :
  percent_change [(1, of_Z 100); (2, of_Z 102); (3, of_Z 99)]
  = Returned [(1, of_Z 0); (2, of_Z 2); (3, of_Z (-1))].
Proof. reflexivity. Qed.

Example percent_change_symbol :
  percent_change [(1, of_Z 50); (2, of_Z 55); (3, of_Z 45)]
  = Returned [(1, of_Z 0); (2, of_Z 10); (3, of_Z (-10))].
Proof. reflexivity. Qed.

(* ------------------------------------------------------------------ *)
(** ** Facts about the monad *)

Lemma bind_returned {A B : Type} (m : M A) (f : A -> M B) w b w' :
  bind m f w = (Returned b, w') ->
  exists a w1, m w = (Returned a, w1) /\ f a w1 = (Returned b, w').
Proof.
  unfold bind. destruct (m w) as [[a | e] w1]; intros H.
  - exists a, w1. split; [reflexivity | exact H].
  - discriminate H.
Qed.

Lemma lift_returned {A : Type} (o : outcome A) w a w' :
  lift o w = (Returned a, w') -> o = Returned a /\ w' = w.
Proof. unfold lift. intros H. inversion H. split; reflexivity. Qed.

Lemma log_returned f a kw w u w' :
  log f a kw w = (Returned u, w') ->
  w' = mkWorld (rcParams w) (calls w ++ [Call f a kw]).
Proof. unfold log. intros H. inversion H. reflexivity. Qed.

Lemma external_returned {A : Type} f a kw (answer : outcome A) w x w' :
  external f a kw answer w = (Returned x, w') ->
  answer = Returned x /\ w' = mkWorld (rcParams w) (calls w ++ [Call f a kw]).
Proof.
  unfold external, bind, log, lift. intros H. inversion H. split; reflexivity.
Qed.

(* ------------------------------------------------------------------ *)
(** ** What a run of plot_stock_price_chart does *)

Lemma plot_stock_price_chart_run env sym s e p verbose type style mav nt w :
  plot_stock_price_chart env sym s e p verbose type style mav nt w =
  match get_stock_data env sym s e with
  | Raised x =>
      (Raised x, mkWorld (rcParams w) (calls w ++ [price_chart_fetch sym s e]))
  | Returned df =>
      let kw := filtered_params sym p type style mav nt in
      let answer := mpf_plot env df kw (rcParams w) in
      let w' := mkWorld (snd answer)
                  (calls w ++ [price_chart_fetch sym s e]
                           ++ price_chart_print verbose df
                           ++ [price_chart_plot df kw]) in
      match fst answer with
      | Raised x => (Raised x, w')
      | Returned _ => (Returned (type +++ " chart saved to <img " +++ p +++ ">"), w')
      end
  end.
Proof.
  unfold plot_stock_price_chart, mpf_plot_call, external, bind, log, lift, ret,
    price_chart_fetch, price_chart_print, price_chart_plot.
  simpl. destruct (get_stock_data env sym s e) as [df | x]; [ | reflexivity ].
  destruct verbose; simpl;
    destruct (mpf_plot env df _ _) as [[u | x] rc']; simpl;
    rewrite <- ?app_assoc; reflexivity.
Qed.


Lemma image_targets_app a b :
  image_targets (a ++ b) = image_targets a ++ image_targets b.
Proof. unfold image_targets. apply flat_map_app. Qed.



(* ------------------------------------------------------------------ *)
(** ** What a returning run of get_share_performance does *)

Lemma rcParams_update_returned key v w u w' :
  rcParams_update key v w = (Returned u, w') ->
  w' = mkWorld (dict_set String.eqb key v (rcParams w))
               (calls w ++ [Call "plt.rcParams.update" [VDict [(key, v)]] []]).
Proof. unfold rcParams_update. intros H. inversion H. reflexivity. Qed.

Lemma ret_returned {A : Type} (a b : A) w w' :
  ret a w = (Returned b, w') -> b = a /\ w' = w.
Proof. unfold ret. intros H. inversion H. split; reflexivity. Qed.

Lemma timedelta_365 : timedelta 365 = Returned 365.
Proof. reflexivity. Qed.

Lemma fetch_stock_data_returned env d ticker w s w' :
  fetch_stock_data env d ticker w = (Returned s, w') ->
  exists start df,
    datetime_sub d 365 = Returned start /\
    get_stock_data env ticker (strftime env start "%Y-%m-%d")
                   (strftime env d "%Y-%m-%d") = Returned df /\
    s = column_Close df /\
    w' = mkWorld (rcParams w) (calls w ++ [window_fetch env ticker start d]).
Proof.
  unfold fetch_stock_data. rewrite timedelta_365. intros H.
  apply bind_returned in H. destruct H as (x & w1 & H1 & H).
  apply lift_returned in H1. destruct H1 as [H1 ->]. inversion H1; subst x.
  apply bind_returned in H. destruct H as (start & w2 & H2 & H).
  apply lift_returned in H2. destruct H2 as [H2 ->].
  apply bind_returned in H. destruct H as (df & w3 & H3 & H).
  apply external_returned in H3. destruct H3 as [H3 ->].
  apply ret_returned in H. destruct H as [-> ->].
  exists start, df. repeat split; assumption.
Qed.

Lemma fetch_stock_data_run env d ticker w start df :
  datetime_sub d 365 = Returned start ->
  get_stock_data env ticker (strftime env start "%Y-%m-%d")
                 (strftime env d "%Y-%m-%d") = Returned df ->
  fetch_stock_data env d ticker w =
  (Returned (column_Close df),
   mkWorld (rcParams w) (calls w ++ [window_fetch env ticker start d])).
Proof.
  intros Hs Hf. unfold fetch_stock_data, external, bind, lift, log, ret.
  rewrite timedelta_365, Hs. simpl. rewrite Hf. reflexivity.
Qed.

Ltac step_returned H :=
  let a := fresh "a" in
  let w1 := fresh "w" in
  let Hs := fresh "Hs" in
  let Hw := fresh "Hw" in
  lazymatch type of H with
  | bind _ _ _ = _ => idtac
  end;
  apply bind_returned in H; destruct H as (a & w1 & Hs & H);
  cbv beta zeta in H;
  lazymatch type of Hs with
  | fetch_stock_data _ _ _ _ = _ =>
      apply fetch_stock_data_returned in Hs;
      destruct Hs as (? & ? & ? & ? & ? & Hw)
  | rcParams_update _ _ _ = _ =>
      apply rcParams_update_returned in Hs; rename Hs into Hw
  | log _ _ _ _ = _ => apply log_returned in Hs; rename Hs into Hw
  | external _ _ _ _ _ = _ =>
      apply external_returned in Hs; destruct Hs as [Hs Hw]
  | lift _ _ = _ => apply lift_returned in Hs; destruct Hs as [Hs Hw]
  end;
  cbn [rcParams calls] in Hw; subst.

Lemma get_share_performance_returned env sym fd save w s w' :
  get_share_performance env sym fd save w = (Returned s, w') ->
  exists d start target sp info name cc sc,
    filing_datetime env fd = Returned d /\
    datetime_sub d 365 = Returned start /\
    get_stock_data env sym (strftime env start "%Y-%m-%d")
                   (strftime env d "%Y-%m-%d") = Returned target /\
    get_stock_data env "^GSPC" (strftime env start "%Y-%m-%d")
                   (strftime env d "%Y-%m-%d") = Returned sp /\
    get_stock_info env sym = Returned info /\
    getitem info "shortName" = Returned name /\
    percent_change (column_Close target) = Returned cc /\
    percent_change (column_Close sp) = Returned sc /\
    savefig env (stock_performance_path env save) = Returned tt /\
    s = "last year stock performance chart saved to <img "
          +++ stock_performance_path env save +++ ">" /\
    calls w' = calls w ++
      [window_fetch env sym start d; window_fetch env "^GSPC" start d;
       Call "YFinanceUtils.get_stock_info" [VStr sym] []] ++
      share_plot_calls env name cc sc (stock_performance_path env save).
Proof.
  unfold get_share_performance. intros H.
  repeat step_returned H.
  apply ret_returned in H. destruct H as [-> ->].
  rewrite H0 in H2. inversion H2; subst.
  rewrite Hs3 in Hs4. inversion Hs4; subst.
  destruct a16.
  exists a, x1, x0, x2, a0, a8, a1, a2.
  repeat (split; [ assumption || reflexivity | ]).
  unfold share_plot_calls, stock_performance_path. simpl.
  rewrite <- !app_assoc. reflexivity.
Qed.

(** With a symbol or benchmark series of zero rows the run stops at
    [.iloc[0]], after the three provider calls. *)
Lemma get_share_performance_zero_rows env sym fd save w d start target sp info :
  filing_datetime env fd = Returned d ->
  datetime_sub d 365 = Returned start ->
  get_stock_data env sym (strftime env start "%Y-%m-%d")
                 (strftime env d "%Y-%m-%d") = Returned target ->
  get_stock_data env "^GSPC" (strftime env start "%Y-%m-%d")
                 (strftime env d "%Y-%m-%d") = Returned sp ->
  get_stock_info env sym = Returned info ->
  target = [] \/ sp = [] ->
  get_share_performance env sym fd save w =
  (Raised IndexError,
   mkWorld (rcParams w)
     (calls w ++ [window_fetch env sym start d; window_fetch env "^GSPC" start d;
                  Call "YFinanceUtils.get_stock_info" [VStr sym] []])).
Proof.
  intros Hd Hs Ht Hsp Hi Hempty.
  unfold get_share_performance.
  unfold bind at 1. unfold lift at 1. rewrite Hd.
  unfold bind at 1. rewrite (fetch_stock_data_run _ _ _ _ _ _ Hs Ht).
  unfold bind at 1. rewrite (fetch_stock_data_run _ _ _ _ _ _ Hs Hsp).
  unfold bind at 1. unfold external, bind, log, lift. rewrite Hi. simpl.
  rewrite <- !app_assoc. simpl.
  destruct Hempty as [-> | ->].
  - reflexivity.
  - destruct target as [ | [d0 o h l c v] rest]; reflexivity.
Qed.

(* ------------------------------------------------------------------ *)
(** ** What a returning run of get_pe_eps_performance does *)

Lemma timedelta_returned n x :
  timedelta n = Returned x -> x = n /\ Z.abs n <= 999999999.
Proof.
  unfold timedelta. destruct (Z.abs n <=? 999999999) eqn:E; intros H.
  - apply Z.leb_le in E. inversion H. subst x. split; [reflexivity | exact E].
  - discriminate H.
Qed.

Lemma get_pe_eps_performance_returned env sym fd years save w s w' :
  get_pe_eps_performance env sym fd years save w = (Returned s, w') ->
  exists d ss eps start hist aligned info name p,
    filing_datetime env fd = Returned d /\
    get_income_stmt env sym = Returned ss /\
    getitem ss "Diluted EPS" = Returned eps /\
    Z.abs (lookback_days years) <= 999999999 /\
    datetime_sub d (lookback_days years) = Returned start /\
    get_stock_data env sym (strftime env start "%Y-%m-%d")
                   (strftime env d "%Y-%m-%d") = Returned hist /\
    pe_eps_series hist eps = Returned aligned /\
    get_stock_info env sym = Returned info /\
    plot_lengths (fst (fst aligned)) (snd (fst aligned)) = Returned tt /\
    plot_lengths (fst (fst aligned)) (snd aligned) = Returned tt /\
    getitem info "shortName" = Returned name /\
    save = Some p /\
    savefig env (pe_performance_path env p) = Returned tt /\
    s = "pe performance chart saved to <img " +++ pe_performance_path env p +++ ">" /\
    calls w' = calls w ++
      [Call "YFinanceUtils.get_income_stmt" [VStr sym] [];
       window_fetch env sym start d;
       Call "YFinanceUtils.get_stock_info" [VStr sym] []] ++
      pe_plot_calls env name years (fst (fst aligned)) (snd (fst aligned))
                    (snd aligned) (pe_performance_path env p).
Proof.
  unfold get_pe_eps_performance. intros H.
  repeat step_returned H.
  apply ret_returned in H. destruct H as [-> ->].
  apply timedelta_returned in Hs2. destruct Hs2 as [-> Hdays].
  destruct a11, a16, a24.
  destruct save as [p | ]; [ | discriminate Hs10 ].
  inversion Hs10; subst a23.
  exists a, a0, a1, a3, a4, a5, a6, a18, p.
  repeat (split; [ assumption || reflexivity | ]).
  unfold pe_plot_calls, pe_performance_path. cbn [calls].
  rewrite <- !app_assoc. reflexivity.
Qed.

(* ------------------------------------------------------------------ *)
(** ** The file behind an image request *)










(* ------------------------------------------------------------------ *)
(** ** Output paths of the two report charts *)




(* ------------------------------------------------------------------ *)
(** ** The price chart *)


Lemma price_requests_app a b :
  price_requests (a ++ b) = price_requests a ++ price_requests b.
Proof. unfold price_requests. apply flat_map_app. Qed.




(** C6.  plot_stock_price_chart does nothing about a save_path that names a
    directory, where the two report charts append a file name: the
    directory name goes to mpf.plot as it is, the image is written beside
    the directory, as "out.png", and the text names "out".  With the same
    save_path get_share_performance writes out/stock_performance.png. *)
Theorem price_chart_directory_save_path :
  let price := plot_stock_price_chart demo_env "AAPL" "2024-03-01" "2024-04-01"
                 "out" false "candle" "default" VNone false demo_world in
  let share := get_share_performance demo_env "AAPL" (DateTime 738000) "out"
                 demo_world in
  isdir demo_env "out" = true /\
  fst price = Returned "candle chart saved to <img out>" /\
  image_targets (calls (snd price)) = ["out"] /\
  image_files (calls (snd price)) = ["out.png"] /\
  fst share
    = Returned "last year stock performance chart saved to <img out/stock_performance.png>" /\
  image_files (calls (snd share)) = ["out/stock_performance.png"].
Proof.
  cbv zeta. repeat split; vm_compute; reflexivity.
Qed.

(* ------------------------------------------------------------------ *)
(** ** Failures *)

Lemma unclassified_returned {A : Type} (a : A) : unclassified (Returned a).
Proof. intros e H. discriminate H. Qed.

Lemma unclassified_raised {A : Type} (x : PyExc) :
  classified x = false -> unclassified (@Raised A x).
Proof. intros Hx e H. inversion H; subst e. exact Hx. Qed.

Lemma unclassified_obind {A B : Type} (o : outcome A) (f : A -> outcome B) :
  unclassified o -> (forall a, unclassified (f a)) -> unclassified (obind o f).
Proof.
  destruct o as [a | x]; cbn [obind]; intros Ho Hf.
  - apply Hf.
  - apply unclassified_raised, (Ho x). reflexivity.
Qed.

Lemma unclassified_percent_change s : unclassified (percent_change s).
Proof.
  unfold percent_change. apply unclassified_obind.
  - destruct s as [ | [d v] t]; cbn [iloc0].
    + apply unclassified_raised. reflexivity.
    + apply unclassified_returned.
  - intros a. apply unclassified_returned.
Qed.

Lemma unclassified_getitem {V : Type} (d : list (string * V)) key :
  unclassified (getitem d key).
Proof.
  unfold getitem. destruct (dict_find String.eqb key d).
  - apply unclassified_returned.
  - apply unclassified_raised. reflexivity.
Qed.

Lemma unclassified_timedelta n : unclassified (timedelta n).
Proof.
  unfold timedelta. destruct (Z.abs n <=? 999999999).
  - apply unclassified_returned.
  - apply unclassified_raised. reflexivity.
Qed.

Lemma unclassified_datetime_sub d n : unclassified (datetime_sub d n).
Proof.
  unfold datetime_sub. cbv zeta.
  destruct ((1 <=? d - n) && (d - n <=? 3652059)).
  - apply unclassified_returned.
  - apply unclassified_raised. reflexivity.
Qed.

Lemma unclassified_plot_lengths x y : unclassified (plot_lengths x y).
Proof.
  unfold plot_lengths. destruct (Nat.eqb (List.length x) (List.length y)).
  - apply unclassified_returned.
  - apply unclassified_raised. reflexivity.
Qed.

Lemma unclassified_lookup hist d :
  unclassified (if negb (in_index d hist) then asof hist d else loc hist d).
Proof.
  destruct (negb (in_index d hist)).
  - unfold asof. destruct (is_monotonic_increasing (map date hist)).
    + destruct hist.
      * apply unclassified_raised. reflexivity.
      * apply unclassified_returned.
    + apply unclassified_raised. reflexivity.
  - unfold loc. destruct (find (fun r => date r =? d) hist).
    + apply unclassified_returned.
    + apply unclassified_raised. reflexivity.
Qed.

Lemma unclassified_results_loop hist dates acc :
  unclassified (results_loop hist dates acc).
Proof.
  revert acc. induction dates as [ | d rest IH]; intros acc; cbn [results_loop].
  - apply unclassified_returned.
  - apply unclassified_obind; [ apply unclassified_lookup | intros cp; apply IH ].
Qed.

Lemma unclassified_pe_eps_series hist eps : unclassified (pe_eps_series hist eps).
Proof.
  unfold pe_eps_series. cbv zeta. apply unclassified_obind.
  - apply unclassified_results_loop.
  - intros res. apply unclassified_returned.
Qed.

Lemma unclassified_filing_datetime env fd :
  (forall s f, unclassified (strptime env s f)) ->
  unclassified (filing_datetime env fd).
Proof.
  intros H. destruct fd as [s | d]; cbn [filing_datetime].
  - apply H.
  - apply unclassified_returned.
Qed.

Lemma raises_unclassified_lift {A : Type} (o : outcome A) :
  unclassified o -> raises_unclassified (lift o).
Proof. intros H w. exact H. Qed.

Lemma raises_unclassified_ret {A : Type} (a : A) : raises_unclassified (ret a).
Proof. intros w. apply unclassified_returned. Qed.

Lemma raises_unclassified_log f a kw : raises_unclassified (log f a kw).
Proof. intros w. apply unclassified_returned. Qed.

Lemma raises_unclassified_rcParams_update key v :
  raises_unclassified (rcParams_update key v).
Proof. intros w. apply unclassified_returned. Qed.

Lemma raises_unclassified_bind {A B : Type} (m : M A) (k : A -> M B) :
  raises_unclassified m -> (forall a, raises_unclassified (k a)) ->
  raises_unclassified (bind m k).
Proof.
  intros Hm Hk w. unfold bind. specialize (Hm w).
  destruct (m w) as [[a | x] w1]; cbn [fst] in *.
  - apply Hk.
  - apply unclassified_raised, (Hm x). reflexivity.
Qed.

Lemma raises_unclassified_external {A : Type} f a kw (answer : outcome A) :
  unclassified answer -> raises_unclassified (external f a kw answer).
Proof.
  intros H. unfold external. apply raises_unclassified_bind.
  - apply raises_unclassified_log.
  - intros _. apply raises_unclassified_lift, H.
Qed.

Lemma raises_unclassified_mpf_plot_call env df kw :
  (forall rc, unclassified (fst (mpf_plot env df kw rc))) ->
  raises_unclassified (mpf_plot_call env df kw).
Proof. intros H w. unfold mpf_plot_call. cbn [fst]. apply H. Qed.

Create HintDb unclassified.
#[local] Hint Resolve unclassified_returned unclassified_percent_change
  unclassified_getitem unclassified_timedelta unclassified_datetime_sub
  unclassified_plot_lengths unclassified_pe_eps_series
  unclassified_filing_datetime : unclassified.

Ltac unclassified_step :=
  cbv beta zeta;
  match goal with
  | |- raises_unclassified (bind _ _) => apply raises_unclassified_bind; [ | intros ]
  | |- raises_unclassified (lift _) => apply raises_unclassified_lift
  | |- raises_unclassified (ret _) => apply raises_unclassified_ret
  | |- raises_unclassified (log _ _ _) => apply raises_unclassified_log
  | |- raises_unclassified (rcParams_update _ _) =>
      apply raises_unclassified_rcParams_update
  | |- raises_unclassified (external _ _ _ _) => apply raises_unclassified_external
  | |- raises_unclassified (mpf_plot_call _ _ _) =>
      apply raises_unclassified_mpf_plot_call; intros
  | |- raises_unclassified (if ?b then _ else _) => destruct b
  | |- unclassified (Raised _) => apply unclassified_raised; reflexivity
  | |- unclassified (match ?x with _ => _ end) => destruct x
  | |- unclassified _ => solve [ auto with unclassified ]
  | |- raises_unclassified _ => solve [ auto with unclassified ]
  end.

Section Unclassified.
Variable env : Env.
Hypothesis collaborators : collaborators_unclassified env.

Lemma raises_unclassified_fetch_stock_data d ticker :
  raises_unclassified (fetch_stock_data env d ticker).
Proof.
  pose proof collaborators as Hc. destruct Hc as (Hdata & _).
  unfold fetch_stock_data. repeat unclassified_step.
Qed.

Lemma raises_unclassified_plot_stock_price_chart sym s e p verbose type style mav nt :
  raises_unclassified (plot_stock_price_chart env sym s e p verbose type style mav nt).
Proof.
  pose proof collaborators as Hc. destruct Hc as (Hdata & _ & _ & Hplot & _).
  unfold plot_stock_price_chart. repeat unclassified_step.
Qed.

Lemma raises_unclassified_get_share_performance sym fd save :
  raises_unclassified (get_share_performance env sym fd save).
Proof.
  pose proof raises_unclassified_fetch_stock_data as Hfetch.
  pose proof collaborators as Hc. destruct Hc as (Hdata & Hinfo & _ & _ & Hsave & Hstrp).
  unfold get_share_performance. repeat unclassified_step.
Qed.

Lemma raises_unclassified_get_pe_eps_performance sym fd years save :
  raises_unclassified (get_pe_eps_performance env sym fd years save).
Proof.
  pose proof collaborators as Hc. destruct Hc as (Hdata & Hinfo & Hincome & _ & Hsave & Hstrp).
  unfold get_pe_eps_performance. repeat unclassified_step.
Qed.

End Unclassified.

(** C5, as the claim states it, fails: with zero rows for the symbol,
    get_share_performance raises IndexError, which is not an error value of
    kind NoData. *)
Lemma share_zero_rows_raises_IndexError :
  get_stock_data demo_env "NONE" "737635" "738000" = Returned [] /\
  fst (get_share_performance demo_env "NONE" (DateTime 738000) "out.png" demo_world)
    = Raised IndexError /\
  IndexError <> Classified NoData.
Proof.
  split; [ reflexivity | split; [ vm_compute; reflexivity | discriminate ] ].
Qed.

(** C5, amended.  The renderers define no error values of their own: unless
    a collaborator (the provider, mpf.plot, plt.savefig, strptime) itself
    raises an error of one of the kinds NoData, InvalidConfig, WriteFailed,
    no run of any of the three renderers ends in one.
    When the symbol or the benchmark has zero rows, get_share_performance
    raises IndexError (from [.iloc[0]]) after its three provider calls and
    before any plotting call, so no image is written.
    plot_stock_price_chart checks neither the rows nor chart_type or style:
    it raises exactly what the provider or mpf.plot raises, unchanged, and
    returns whenever both return. *)
Theorem renderer_failures_unclassified env sym w :
  (collaborators_unclassified env ->
   forall s e p verbose type style mav nt fd years save osave k,
     fst (plot_stock_price_chart env sym s e p verbose type style mav nt w)
       <> Raised (Classified k) /\
     fst (get_share_performance env sym fd save w) <> Raised (Classified k) /\
     fst (get_pe_eps_performance env sym fd years osave w)
       <> Raised (Classified k)) /\
  (forall fd save d start target sp info,
      filing_datetime env fd = Returned d ->
      datetime_sub d 365 = Returned start ->
      get_stock_data env sym (strftime env start "%Y-%m-%d")
                     (strftime env d "%Y-%m-%d") = Returned target ->
      get_stock_data env "^GSPC" (strftime env start "%Y-%m-%d")
                     (strftime env d "%Y-%m-%d") = Returned sp ->
      get_stock_info env sym = Returned info ->
      target = [] \/ sp = [] ->
      fst (get_share_performance env sym fd save w) = Raised IndexError /\
      filter is_plot_call (calls (snd (get_share_performance env sym fd save w)))
        = filter is_plot_call (calls w) /\
      image_targets (calls (snd (get_share_performance env sym fd save w)))
        = image_targets (calls w)) /\
  (forall s e p verbose type style mav nt x,
      fst (plot_stock_price_chart env sym s e p verbose type style mav nt w)
        = Raised x <->
      get_stock_data env sym s e = Raised x \/
      exists df, get_stock_data env sym s e = Returned df /\
                 fst (mpf_plot env df (filtered_params sym p type style mav nt)
                        (rcParams w)) = Raised x).
Proof.
  split; [ | split ].
  - intros Hc s e p verbose type style mav nt fd years save osave k.
    assert (Hk : classified (Classified k) = false -> False)
      by (intros H; discriminate H).
    repeat split; intros H; apply Hk.
    + apply (raises_unclassified_plot_stock_price_chart env Hc _ _ _ _ _ _ _ _ _ _ _ H).
    + apply (raises_unclassified_get_share_performance env Hc _ _ _ _ _ H).
    + apply (raises_unclassified_get_pe_eps_performance env Hc _ _ _ _ _ _ H).
  - intros fd save d start target sp info Hd Hs Ht Hsp Hi Hempty.
    rewrite (get_share_performance_zero_rows _ _ _ _ _ _ _ _ _ _ Hd Hs Ht Hsp Hi Hempty).
    cbn [fst snd calls]. split; [ reflexivity | ].
    split.
    + rewrite filter_app. cbn. rewrite app_nil_r. reflexivity.
    + rewrite image_targets_app. cbn. rewrite app_nil_r. reflexivity.
  - intros s e p verbose type style mav nt x.
    rewrite plot_stock_price_chart_run.
    destruct (get_stock_data env sym s e) as [df | y]; cbv zeta.
    + destruct (mpf_plot env df _ _) as [[u | y] rc'] eqn:Hplot; cbn [fst]; split.
      * intros H. discriminate H.
      * intros [H | (df' & H & H')]; [ discriminate H | ].
        inversion H; subst df'. rewrite Hplot in H'. discriminate H'.
      * intros H. right. exists df. split; [ reflexivity | ].
        rewrite Hplot. inversion H. reflexivity.
      * intros [H | (df' & H & H')]; [ discriminate H | ].
        inversion H; subst df'. rewrite Hplot in H'. inversion H'. reflexivity.
    + cbn [fst]. split.
      * intros H. left. inversion H. reflexivity.
      * intros [H | (df' & H & _)]; [ inversion H; reflexivity | discriminate H ].
Qed.

Lemma renderer_failures_unclassified_witness :
  collaborators_unclassified demo_env /\
  fst (plot_stock_price_chart demo_env "NONE" "2024-03-01" "2024-04-01" "chart.png"
         false "candle" "default" VNone false demo_world)
    <> Raised (Classified NoData) /\
  fst (get_share_performance demo_env "NONE" (DateTime 738000) "out.png" demo_world)
    = Raised IndexError /\
  image_targets
    (calls (snd (get_share_performance demo_env "NONE" (DateTime 738000) "out.png"
                   demo_world))) = [].
Proof.
  assert (Hc : collaborators_unclassified demo_env)
    by (repeat split; intros; intros x H; discriminate H).
  destruct (renderer_failures_unclassified demo_env "NONE" demo_world)
    as (Hnone & Hzero & _).
  split; [ exact Hc | ].
  split.
  - exact (proj1 (Hnone Hc "2024-03-01" "2024-04-01" "chart.png" false "candle"
                    "default" VNone false (DateTime 738000) 4 "out.png"
                    (Some "pe.png") NoData)).
  - destruct (Hzero (DateTime 738000) "out.png" 738000 737635 []
                (demo_prices "^GSPC") [("shortName", "Apple Inc.")]
                eq_refl eq_refl eq_refl eq_refl eq_refl (or_introl eq_refl))
      as (H1 & _ & H3).
    split; [ exact H1 | exact H3 ].
Defined.

(* ------------------------------------------------------------------ *)
(** ** Repeated runs *)

Lemma oblivious_lift {A : Type} (o : outcome A) : oblivious (lift o).
Proof.
  exists o, [], (fun x => x). intros [rc cs]. unfold lift. simpl.
  rewrite app_nil_r. reflexivity.
Qed.

Lemma oblivious_ret {A : Type} (a : A) : oblivious (ret a).
Proof. exact (oblivious_lift (Returned a)). Qed.

Lemma oblivious_log f a kw : oblivious (log f a kw).
Proof. exists (Returned tt), [Call f a kw], (fun x => x). intros w. reflexivity. Qed.

Lemma oblivious_rcParams_update key v : oblivious (rcParams_update key v).
Proof.
  exists (Returned tt), [Call "plt.rcParams.update" [VDict [(key, v)]] []],
         (dict_set String.eqb key v).
  intros w. reflexivity.
Qed.

Lemma oblivious_bind {A B : Type} (m : M A) (f : A -> M B) :
  oblivious m -> (forall a, oblivious (f a)) -> oblivious (bind m f).
Proof.
  intros (r & ev & rc & Hm) Hf. destruct r as [a | e].
  - destruct (Hf a) as (r' & ev' & rc' & Hfa).
    exists r', (ev ++ ev'), (fun x => rc' (rc x)). intros w.
    unfold bind. rewrite Hm, Hfa. simpl. rewrite app_assoc. reflexivity.
  - exists (Raised e), ev, rc. intros w. unfold bind. rewrite Hm. reflexivity.
Qed.

Lemma oblivious_external {A : Type} f a kw (answer : outcome A) :
  oblivious (external f a kw answer).
Proof.
  unfold external. apply oblivious_bind.
  - apply oblivious_log.
  - intros _. apply oblivious_lift.
Qed.

Create HintDb oblivious.
#[local] Hint Resolve oblivious_lift oblivious_ret oblivious_log
  oblivious_rcParams_update oblivious_external : oblivious.

Ltac oblivious_step :=
  match goal with
  | |- oblivious (bind _ _) => apply oblivious_bind; [ | intros ]
  | |- oblivious (if ?b then _ else _) => destruct b
  | |- oblivious (match ?x with _ => _ end) => destruct x
  | |- oblivious _ => solve [ auto with oblivious ]
  end.

Lemma oblivious_fetch_stock_data env d ticker :
  oblivious (fetch_stock_data env d ticker).
Proof. unfold fetch_stock_data. repeat oblivious_step. Qed.

#[local] Hint Resolve oblivious_fetch_stock_data : oblivious.

Lemma oblivious_get_share_performance env sym fd p :
  oblivious (get_share_performance env sym fd p).
Proof. unfold get_share_performance. repeat oblivious_step. Qed.

Lemma oblivious_get_pe_eps_performance env sym fd years p :
  oblivious (get_pe_eps_performance env sym fd years p).
Proof. unfold get_pe_eps_performance. repeat oblivious_step. Qed.

(** Two returning runs one after the other: same text, same calls. *)
Lemma oblivious_twice {A : Type} (m : M A) w a1 w1 a2 w2 :
  oblivious m ->
  m w = (Returned a1, w1) -> m w1 = (Returned a2, w2) ->
  a1 = a2 /\
  exists ev, calls w1 = calls w ++ ev /\ calls w2 = calls w1 ++ ev.
Proof.
  intros (r & ev & rc & H) H1 H2. rewrite H in H1, H2.
  injection H1 as Hr <-. injection H2 as Hr2 <-. cbn [calls].
  split; [ congruence | ].
  exists ev. split; reflexivity.
Qed.

Lemma dict_set_twice {V : Type} k (v : V) d :
  dict_set String.eqb k v (dict_set String.eqb k v d) = dict_set String.eqb k v d.
Proof.
  induction d as [ | [k0 v0] t IH]; cbn [dict_set].
  - rewrite String.eqb_refl. reflexivity.
  - destruct (String.eqb k k0) eqn:E; cbn [dict_set].
    + rewrite String.eqb_refl. reflexivity.
    + rewrite E, IH. reflexivity.
Qed.

Lemma dict_find_set_same {V : Type} k (v : V) d :
  dict_find String.eqb k (dict_set String.eqb k v d) = Some v.
Proof.
  induction d as [ | [k0 v0] t IH]; cbn [dict_set dict_find].
  - rewrite String.eqb_refl. reflexivity.
  - destruct (String.eqb k k0) eqn:E; cbn [dict_find].
    + rewrite String.eqb_refl. reflexivity.
    + rewrite E. exact IH.
Qed.

Lemma dict_find_set_other {V : Type} k k' (v : V) d :
  k' <> k ->
  dict_find String.eqb k' (dict_set String.eqb k v d) = dict_find String.eqb k' d.
Proof.
  intros Hne. apply String.eqb_neq in Hne.
  induction d as [ | [k0 v0] t IH]; cbn [dict_set dict_find].
  - rewrite Hne. reflexivity.
  - destruct (String.eqb k k0) eqn:E; cbn [dict_find].
    + apply String.eqb_eq in E. subst k0. rewrite Hne. reflexivity.
    + rewrite IH. reflexivity.
Qed.

Lemma get_share_performance_rcParams env sym fd save w s w' :
  get_share_performance env sym fd save w = (Returned s, w') ->
  rcParams w' = dict_set String.eqb "font.size" 20 (rcParams w).
Proof.
  unfold get_share_performance. intros H.
  repeat step_returned H.
  apply ret_returned in H. destruct H as [_ ->]. reflexivity.
Qed.

Lemma get_pe_eps_performance_rcParams env sym fd years save w s w' :
  get_pe_eps_performance env sym fd years save w = (Returned s, w') ->
  rcParams w' = dict_set String.eqb "font.size" 20 (rcParams w).
Proof.
  unfold get_pe_eps_performance. intros H.
  repeat step_returned H.
  apply ret_returned in H. destruct H as [_ ->]. reflexivity.
Qed.

(** C9.  Two returning runs of get_share_performance in a row, with the same
    arguments and the same collaborators, return the same text, make the
    same calls and draw them under the same rcParams.  Two such runs of
    get_pe_eps_performance also return the same text and make the same
    calls, but when font.size was not 20 before the first run they are not
    drawn alike: the first run creates its figure (plt.subplots) before it
    sets font.size to 20, so under the font size it found, and the second
    run creates it under 20. *)
Theorem report_charts_repeated env sym fd years save osave w :
  (forall s1 w1 s2 w2,
      get_share_performance env sym fd save w = (Returned s1, w1) ->
      get_share_performance env sym fd save w1 = (Returned s2, w2) ->
      s1 = s2 /\
      exists ev,
        calls w1 = calls w ++ ev /\ calls w2 = calls w1 ++ ev /\
        drawn (rcParams w) ev = drawn (rcParams w1) ev) /\
  (forall s1 w1 s2 w2,
      get_pe_eps_performance env sym fd years osave w = (Returned s1, w1) ->
      get_pe_eps_performance env sym fd years osave w1 = (Returned s2, w2) ->
      dict_find String.eqb "font.size" (rcParams w) <> Some 20 ->
      s1 = s2 /\
      exists ev,
        calls w1 = calls w ++ ev /\ calls w2 = calls w1 ++ ev /\
        hd_error (drawn (rcParams w) ev)
          = Some (Call "plt.subplots" [] [("figsize", VInts [14; 7])], rcParams w) /\
        hd_error (drawn (rcParams w1) ev)
          = Some (Call "plt.subplots" [] [("figsize", VInts [14; 7])],
                  dict_set String.eqb "font.size" 20 (rcParams w)) /\
        drawn (rcParams w) ev <> drawn (rcParams w1) ev).
Proof.
  split.
  - intros s1 w1 s2 w2 H1 H2.
    destruct (oblivious_twice _ _ _ _ _ _
                (oblivious_get_share_performance env sym fd save) H1 H2)
      as (Hs & ev & Hev1 & Hev2).
    split; [ exact Hs | ].
    exists ev. split; [ exact Hev1 | split; [ exact Hev2 | ] ].
    rewrite (get_share_performance_rcParams _ _ _ _ _ _ _ H1).
    apply get_share_performance_returned in H1.
    destruct H1 as (d & start & target & sp & info & name & cc & sc & H1).
    destruct H1 as (_ & _ & _ & _ & _ & _ & _ & _ & _ & _ & Hc).
    rewrite Hev1 in Hc. apply app_inv_head in Hc. subst ev.
    unfold share_plot_calls, window_fetch. cbn [app drawn is_call is_plot_call fn args
      String.eqb Ascii.eqb Bool.eqb negb orb fold_left fst snd].
    rewrite dict_set_twice. reflexivity.
  - intros s1 w1 s2 w2 H1 H2 Hfont.
    destruct (oblivious_twice _ _ _ _ _ _
                (oblivious_get_pe_eps_performance env sym fd years osave) H1 H2)
      as (Hs & ev & Hev1 & Hev2).
    split; [ exact Hs | ].
    exists ev. split; [ exact Hev1 | split; [ exact Hev2 | ] ].
    rewrite (get_pe_eps_performance_rcParams _ _ _ _ _ _ _ _ H1).
    apply get_pe_eps_performance_returned in H1.
    destruct H1 as (d & ss & eps & start & hist & al & info & name & p & H1).
    destruct H1 as (_ & _ & _ & _ & _ & _ & _ & _ & _ & _ & _ & _ & _ & _ & Hc).
    rewrite Hev1 in Hc. apply app_inv_head in Hc. subst ev.
    unfold pe_plot_calls, window_fetch. cbn [app drawn is_call is_plot_call fn args
      String.eqb Ascii.eqb Bool.eqb negb orb fold_left fst snd hd_error].
    split; [ reflexivity | split; [ reflexivity | ] ].
    intros E. injection E as E _. apply Hfont.
    rewrite E. apply dict_find_set_same.
Qed.

Lemma report_charts_repeated_witness :
  let share := get_share_performance demo_env "AAPL" (DateTime 738000) "out" in
  let pe := get_pe_eps_performance demo_env "AAPL" (DateTime 738000) 4 (Some "pe.png") in
  (exists ev,
      calls (snd (share demo_world_fresh)) = calls demo_world_fresh ++ ev /\
      calls (snd (share (snd (share demo_world_fresh))))
        = calls (snd (share demo_world_fresh)) ++ ev /\
      drawn (rcParams demo_world_fresh) ev
        = drawn (rcParams (snd (share demo_world_fresh))) ev) /\
  (exists ev,
      calls (snd (pe demo_world_fresh)) = calls demo_world_fresh ++ ev /\
      calls (snd (pe (snd (pe demo_world_fresh))))
        = calls (snd (pe demo_world_fresh)) ++ ev /\
      hd_error (drawn (rcParams demo_world_fresh) ev)
        = Some (Call "plt.subplots" [] [("figsize", VInts [14; 7])],
                [("font.size", 10)]) /\
      hd_error (drawn (rcParams (snd (pe demo_world_fresh))) ev)
        = Some (Call "plt.subplots" [] [("figsize", VInts [14; 7])],
                [("font.size", 20)]) /\
      drawn (rcParams demo_world_fresh) ev
        <> drawn (rcParams (snd (pe demo_world_fresh))) ev).
Proof.
  cbv zeta.
  pose proof (report_charts_repeated demo_env "AAPL" (DateTime 738000) 4 "out"
                (Some "pe.png") demo_world_fresh) as [Hshare Hpe].
  split.
  - refine (proj2 (Hshare
              "last year stock performance chart saved to <img out/stock_performance.png>"
              (snd (get_share_performance demo_env "AAPL" (DateTime 738000) "out"
                      demo_world_fresh))
              "last year stock performance chart saved to <img out/stock_performance.png>"
              (snd (get_share_performance demo_env "AAPL" (DateTime 738000) "out"
                      (snd (get_share_performance demo_env "AAPL" (DateTime 738000)
                              "out" demo_world_fresh))))
              _ _)); vm_compute; reflexivity.
  - refine (proj2 (Hpe
              "pe performance chart saved to <img pe.png>"
              (snd (get_pe_eps_performance demo_env "AAPL" (DateTime 738000) 4
                      (Some "pe.png") demo_world_fresh))
              "pe performance chart saved to <img pe.png>"
              (snd (get_pe_eps_performance demo_env "AAPL" (DateTime 738000) 4
                      (Some "pe.png")
                      (snd (get_pe_eps_performance demo_env "AAPL" (DateTime 738000) 4
                              (Some "pe.png") demo_world_fresh))))
              _ _ _)); [ vm_compute; reflexivity | vm_compute; reflexivity | ].
    vm_compute. discriminate.
Defined.

(* ------------------------------------------------------------------ *)
(** ** The relative-performance chart *)

Lemma plotted_series_app a b :
  plotted_series (a ++ b) = plotted_series a ++ plotted_series b.
Proof. unfold plotted_series. apply flat_map_app. Qed.

(** C10.  A returning run of get_share_performance asks the provider for
    two price histories: the symbol's, then that of the fixed ticker
    "^GSPC", over the same window; the second series it plots (red,
    labelled "S&P 500 Change %") is the normalized close of the rows
    returned for "^GSPC". *)
Theorem share_benchmark_is_gspc env sym fd save w s w' :
  get_share_performance env sym fd save w = (Returned s, w') ->
  exists d start sp cc sc name,
    filing_datetime env fd = Returned d /\
    datetime_sub d 365 = Returned start /\
    price_requests (calls w') = price_requests (calls w) ++
      [(sym, strftime env start "%Y-%m-%d", strftime env d "%Y-%m-%d");
       ("^GSPC", strftime env start "%Y-%m-%d", strftime env d "%Y-%m-%d")] /\
    get_stock_data env "^GSPC" (strftime env start "%Y-%m-%d")
                   (strftime env d "%Y-%m-%d") = Returned sp /\
    percent_change (column_Close sp) = Returned sc /\
    plotted_series (calls w') = plotted_series (calls w) ++
      [(cc, [("label", VStr (name +++ " Change %")); ("color", VStr "blue")]);
       (sc, [("label", VStr "S&P 500 Change %"); ("color", VStr "red")])].
Proof.
  intros H. apply get_share_performance_returned in H.
  destruct H as (d & start & target & sp & info & name & cc & sc & H).
  destruct H as (Hd & Hs & _ & Hsp & _ & _ & _ & Hsc & _ & _ & Hc).
  exists d, start, sp, cc, sc, name.
  repeat (split; [ assumption | ]).
  split; [ | split; [ exact Hsp | split; [ exact Hsc | ] ] ].
  - rewrite Hc, price_requests_app. reflexivity.
  - rewrite Hc, plotted_series_app. reflexivity.
Qed.

Lemma share_benchmark_is_gspc_witness :
  price_requests
    (calls (snd (get_share_performance demo_env "AAPL" (DateTime 738000) "out"
                   demo_world)))
  = [("AAPL", "737635", "738000"); ("^GSPC", "737635", "738000")].
Proof.
  destruct (share_benchmark_is_gspc demo_env "AAPL" (DateTime 738000) "out"
              demo_world
              "last year stock performance chart saved to <img out/stock_performance.png>"
              (snd (get_share_performance demo_env "AAPL" (DateTime 738000) "out"
                      demo_world)))
    as (d & start & sp & cc & sc & name & Hd & Hs & Hreq & _).
  - vm_compute. reflexivity.
  - inversion Hd; subst d. inversion Hs; subst start. exact Hreq.
Defined.

Lemma Qred_zero q : (q == 0)%Q -> Qred q = 0%Q.
Proof. intros H. apply (Qred_complete q 0 H). Qed.

Lemma is_zero_false q : ~ (q == 0)%Q -> is_zero q = false.
Proof.
  intros H. unfold is_zero. apply Z.eqb_neq. intros E. apply H.
  unfold Qeq. simpl. rewrite E. reflexivity.
Qed.

Lemma percent_of_first q : ~ (q == 0)%Q ->
  mul (div (sub (Fin q) (Fin q)) (Fin q)) (of_Z 100) = of_Z 0.
Proof.
  intros Hq. unfold sub, fin.
  rewrite (Qred_zero (q - q)) by (unfold Qminus; apply Qplus_opp_r).
  unfold div. rewrite (is_zero_false q Hq). unfold fin.
  rewrite (Qred_zero (0 / q)) by (unfold Qdiv; apply Qmult_0_l).
  reflexivity.
Qed.

Lemma percent_change_percent_of close out :
  percent_change close = Returned out -> percent_of close out.
Proof.
  unfold percent_change. destruct close as [ | [d0 c0] rest];
    cbn [iloc0 obind]; intros H.
  - discriminate H.
  - assert (Hout : map (fun p => (fst p, mul (div (sub (snd p) c0) c0) (of_Z 100)))
                       ((d0, c0) :: rest) = out)
      by (injection H as H'; exact H').
    subst out. clear H.
    assert (Hnth : forall i d c,
      nth_error ((d0, c0) :: rest) i = Some (d, c) ->
      nth_error
        (map (fun p => (fst p, mul (div (sub (snd p) c0) c0) (of_Z 100)))
             ((d0, c0) :: rest)) i
      = Some (d, mul (div (sub c c0) c0) (of_Z 100))).
    { intros i d c Hi. rewrite nth_error_map, Hi. reflexivity. }
    split; [ | split ].
    + rewrite length_map. reflexivity.
    + intros i d c d1 c1 Hi H0. simpl in H0. inversion H0; subst d1 c1.
      apply (Hnth i d c Hi).
    + intros d1 q H0 Hq. simpl in H0. inversion H0; subst d1 c0.
      rewrite (Hnth 0%nat d0 (Fin q) eq_refl), (percent_of_first q Hq).
      reflexivity.
Qed.

(** C1, as the claim states it, fails: for a non-empty series whose first
    close is 0 the value at the first date is NaN, not 0. *)
Lemma share_first_close_zero_not_zero :
  let run := get_share_performance demo_env "ZERO" (DateTime 738000) "out"
               demo_world in
  column_Close (demo_prices "ZERO") = [(10, of_Z 0); (20, of_Z 1)] /\
  plotted_series (calls (snd run)) =
    [([(10, NaN); (20, PInf)],
      [("label", VStr "Apple Inc. Change %"); ("color", VStr "blue")]);
     ([(10, of_Z 0); (20, of_Z 2); (30, of_Z (-1))],
      [("label", VStr "S&P 500 Change %"); ("color", VStr "red")])] /\
  NaN <> of_Z 0.
Proof.
  split; [ reflexivity | split; [ vm_compute; reflexivity | discriminate ] ].
Qed.

(** C1, amended.  A returning run of get_share_performance plots two
    series, the first computed from the symbol's closes alone and the second
    from the benchmark's closes alone, each as
    (close[i] - close[0]) / close[0] * 100 over its own rows; for a series
    whose first close is a finite number other than zero, the value at its
    first date is exactly 0. *)
Theorem share_series_normalized env sym fd save w s w' :
  get_share_performance env sym fd save w = (Returned s, w') ->
  exists d start target sp cc sc name,
    filing_datetime env fd = Returned d /\
    datetime_sub d 365 = Returned start /\
    get_stock_data env sym (strftime env start "%Y-%m-%d")
                   (strftime env d "%Y-%m-%d") = Returned target /\
    get_stock_data env "^GSPC" (strftime env start "%Y-%m-%d")
                   (strftime env d "%Y-%m-%d") = Returned sp /\
    plotted_series (calls w') = plotted_series (calls w) ++
      [(cc, [("label", VStr (name +++ " Change %")); ("color", VStr "blue")]);
       (sc, [("label", VStr "S&P 500 Change %"); ("color", VStr "red")])] /\
    percent_of (column_Close target) cc /\
    percent_of (column_Close sp) sc.
Proof.
  intros H. apply get_share_performance_returned in H.
  destruct H as (d & start & target & sp & info & name & cc & sc & H).
  destruct H as (Hd & Hs & Ht & Hsp & _ & _ & Hcc & Hsc & _ & _ & Hc).
  exists d, start, target, sp, cc, sc, name.
  repeat (split; [ assumption | ]).
  split; [ | split ].
  - rewrite Hc, plotted_series_app. reflexivity.
  - apply percent_change_percent_of, Hcc.
  - apply percent_change_percent_of, Hsc.
Qed.

Lemma share_series_normalized_witness :
  exists cc sc name,
    plotted_series
      (calls (snd (get_share_performance demo_env "AAPL" (DateTime 738000) "out"
                     demo_world)))
    = [(cc, [("label", VStr (name +++ " Change %")); ("color", VStr "blue")]);
       (sc, [("label", VStr "S&P 500 Change %"); ("color", VStr "red")])] /\
    percent_of (column_Close (demo_prices "AAPL")) cc /\
    percent_of (column_Close (demo_prices "^GSPC")) sc.
Proof.
  destruct (share_series_normalized demo_env "AAPL" (DateTime 738000) "out"
              demo_world
              "last year stock performance chart saved to <img out/stock_performance.png>"
              (snd (get_share_performance demo_env "AAPL" (DateTime 738000) "out"
                      demo_world)))
    as (d & start & target & sp & cc & sc & name & Hd & Hs & Ht & Hsp & Hp & H1 & H2).
  - vm_compute. reflexivity.
  - inversion Ht; subst target. inversion Hsp; subst sp.
    exists cc, sc, name. split; [ exact Hp | split; [ exact H1 | exact H2 ] ].
Defined.

(* ------------------------------------------------------------------ *)
(** ** The price window of the P/E chart *)

Lemma round_half_even_nearest n :
  Z.abs (4 * round_half_even n 4 - n) <= 2 /\
  (Z.abs (4 * round_half_even n 4 - n) = 2 -> Z.even (round_half_even n 4) = true).
Proof.
  unfold round_half_even.
  pose proof (Z.div_mod n 4 ltac:(lia)) as Hdm.
  pose proof (Z.mod_pos_bound n 4 ltac:(lia)) as Hb.
  destruct (Z.compare_spec (2 * (n mod 4)) 4) as [E | E | E].
  - destruct (Z.even (n / 4)) eqn:Ev.
    + split; [ lia | intros _; exact Ev ].
    + split; [ lia | ].
      intros _. rewrite Z.even_add, Ev. reflexivity.
  - split; lia.
  - split; lia.
Qed.

Lemma datetime_sub_returned d n r :
  datetime_sub d n = Returned r -> r = d - n.
Proof.
  unfold datetime_sub.
  destruct ((1 <=? d - n) && (d - n <=? 3652059)); intros H.
  - inversion H. reflexivity.
  - discriminate H.
Qed.

(** C4, as the claim states it, fails: with years = 4 the window starts
    1826 days before the date, not 4 * 365 = 1460 days before it. *)
Lemma pe_window_not_365_per_year :
  price_requests
    (calls (snd (get_pe_eps_performance demo_env "AAPL" (DateTime 738000) 4
                   (Some "pe.png") demo_world)))
    = [("AAPL", str_of_int (738000 - 1826), str_of_int 738000)] /\
  lookback_days 4 = 1826 /\
  str_of_int (738000 - 1826) <> str_of_int (738000 - 4 * 365).
Proof.
  split; [ vm_compute; reflexivity | split; [ reflexivity | ] ].
  vm_compute. discriminate.
Qed.

(** C4, amended.  For years >= 1, a returning run of get_pe_eps_performance
    asks the provider for one price history, from
    filing_date - round((years + 1) * 365.25) days to filing_date.  The
    number of days is the integer nearest to (years + 1) * 365.25, the even
    one at a tie, so it lies between 365 and 366 days per year of
    years + 1 years. *)
Theorem pe_price_window env sym fd years save w s w' :
  1 <= years ->
  get_pe_eps_performance env sym fd years save w = (Returned s, w') ->
  exists d days,
    filing_datetime env fd = Returned d /\
    price_requests (calls w') = price_requests (calls w) ++
      [(sym, strftime env (d - days) "%Y-%m-%d", strftime env d "%Y-%m-%d")] /\
    days = lookback_days years /\
    Z.abs (4 * days - 1461 * (years + 1)) <= 2 /\
    (Z.abs (4 * days - 1461 * (years + 1)) = 2 -> Z.even days = true) /\
    365 * (years + 1) <= days <= 366 * (years + 1).
Proof.
  intros Hy H. apply get_pe_eps_performance_returned in H.
  destruct H as (d & ss & eps & start & hist & al & info & name & p & H).
  destruct H as (Hd & _ & _ & _ & Hs & _ & _ & _ & _ & _ & _ & _ & _ & _ & Hc).
  apply datetime_sub_returned in Hs. subst start.
  exists d, (lookback_days years).
  split; [ exact Hd | ].
  split; [ rewrite Hc, price_requests_app; reflexivity | ].
  split; [ reflexivity | ].
  unfold lookback_days.
  destruct (round_half_even_nearest ((years + 1) * 1461)) as [Hn He].
  replace (1461 * (years + 1)) with ((years + 1) * 1461) by lia.
  split; [ exact Hn | split; [ exact He | lia ] ].
Qed.

Lemma pe_price_window_witness :
  exists d days,
    filing_datetime demo_env (DateTime 738000) = Returned d /\
    price_requests
      (calls (snd (get_pe_eps_performance demo_env "AAPL" (DateTime 738000) 4
                     (Some "pe.png") demo_world)))
    = price_requests (calls demo_world) ++
      [("AAPL", strftime demo_env (d - days) "%Y-%m-%d",
        strftime demo_env d "%Y-%m-%d")] /\
    days = lookback_days 4 /\
    Z.abs (4 * days - 1461 * (4 + 1)) <= 2 /\
    (Z.abs (4 * days - 1461 * (4 + 1)) = 2 -> Z.even days = true) /\
    365 * (4 + 1) <= days <= 366 * (4 + 1).
Proof.
  apply (pe_price_window demo_env "AAPL" (DateTime 738000) 4 (Some "pe.png")
           demo_world "pe performance chart saved to <img pe.png>").
  - lia.
  - vm_compute. reflexivity.
Defined.

(* ------------------------------------------------------------------ *)
(** ** The as-of join of the P/E chart *)

Lemma pe_points_app a b : pe_points (a ++ b) = pe_points a ++ pe_points b.
Proof. unfold pe_points. apply flat_map_app. Qed.

Lemma is_monotonic_cons a l :
  is_monotonic_increasing (a :: l) = true ->
  is_monotonic_increasing l = true /\ Forall (fun x => a <= x) l.
Proof.
  revert a. induction l as [ | b t IH]; intros a H.
  - split; [ reflexivity | constructor ].
  - cbn [is_monotonic_increasing] in H. apply andb_true_iff in H.
    destruct H as [Hab Ht]. apply Z.leb_le in Hab.
    split; [ exact Ht | ].
    constructor; [ exact Hab | ].
    destruct (IH b Ht) as [_ Hb].
    apply (Forall_impl _ (fun x (Hx : b <= x) => Z.le_trans _ _ _ Hab Hx) Hb).
Qed.

Lemma asof_scan_some df w acc r :
  is_monotonic_increasing (map date df) = true ->
  (forall a, acc = Some a -> Forall (fun x => date a <= date x) df) ->
  asof_scan df w acc = Some r ->
  (acc = Some r \/ (In r df /\ date r <= w /\ row_isna r = false)) /\
  (forall r', In r' df -> date r' <= w -> row_isna r' = false ->
              date r' <= date r).
Proof.
  revert acc. induction df as [ | x t IH]; intros acc Hmono Hacc H.
  - cbn in H. split; [ left; exact H | intros r' [] ].
  - cbn [map] in Hmono. apply is_monotonic_cons in Hmono.
    destruct Hmono as [Hmt Hxt]. rewrite Forall_map in Hxt.
    cbn [asof_scan] in H.
    destruct ((date x <=? w) && negb (row_isna x)) eqn:Q.
    + apply andb_true_iff in Q. destruct Q as [Q1 Q2].
      apply Z.leb_le in Q1. apply negb_true_iff in Q2.
      destruct (IH (Some x) Hmt) as [Hr Hmax]; [ | exact H | ].
      { intros a Ha. inversion Ha; subst a. exact Hxt. }
      assert (Hxr : date x <= date r).
      { destruct Hr as [Hr | (Hin & _)].
        - inversion Hr. lia.
        - rewrite Forall_forall in Hxt. apply Hxt, Hin. }
      split.
      * right. destruct Hr as [Hr | (Hin & Hle & Hna)].
        -- inversion Hr; subst r. split; [ left; reflexivity | split; assumption ].
        -- split; [ right; exact Hin | split; assumption ].
      * intros r' [-> | Hin] Hle Hna; [ exact Hxr | apply Hmax; assumption ].
    + destruct (IH acc Hmt) as [Hr Hmax]; [ | exact H | ].
      { intros a Ha. specialize (Hacc a Ha). inversion Hacc; assumption. }
      split.
      * destruct Hr as [Hr | (Hin & Hle & Hna)]; [ left; exact Hr | ].
        right. split; [ right; exact Hin | split; assumption ].
      * intros r' [-> | Hin] Hle Hna; [ | apply Hmax; assumption ].
        apply Z.leb_le in Hle. rewrite Hle, Hna in Q. discriminate Q.
Qed.

Lemma asof_scan_none df w acc :
  asof_scan df w acc = None ->
  acc = None /\ forall r, In r df -> date r <= w -> row_isna r = true.
Proof.
  revert acc. induction df as [ | x t IH]; intros acc H.
  - cbn in H. split; [ exact H | intros r [] ].
  - cbn [asof_scan] in H.
    destruct ((date x <=? w) && negb (row_isna x)) eqn:Q.
    + destruct (IH _ H) as [Hx _]. discriminate Hx.
    + destruct (IH _ H) as [Ha Ht]. split; [ exact Ha | ].
      intros r [-> | Hin] Hle; [ | apply Ht; assumption ].
      apply Z.leb_le in Hle. rewrite Hle in Q. cbn in Q.
      apply negb_false_iff in Q. exact Q.
Qed.

Lemma in_index_false d df :
  in_index d df = false -> forall r, In r df -> date r <> d.
Proof.
  unfold in_index. intros H r Hin E.
  assert (Ht : existsb (fun r0 => date r0 =? d) df = true).
  { apply existsb_exists. exists r. split; [ exact Hin | apply Z.eqb_eq, E ]. }
  rewrite H in Ht. discriminate Ht.
Qed.

Lemma asof_returned hist F cp :
  asof hist F = Returned cp ->
  is_monotonic_increasing (map date hist) = true /\
  hist <> [] /\
  cp = match asof_scan hist F None with
       | Some r => r
       | None => nan_row F
       end.
Proof.
  unfold asof.
  destruct (is_monotonic_increasing (map date hist)); [ | discriminate ].
  destruct hist as [ | r0 t]; [ discriminate | ].
  intros H. inversion H. repeat split. discriminate.
Qed.

Lemma asof_sorted hist F :
  is_monotonic_increasing (map date hist) = true ->
  hist <> [] ->
  asof hist F = Returned (match asof_scan hist F None with
                          | Some r => r
                          | None => nan_row F
                          end).
Proof.
  intros Hm Hne. unfold asof. rewrite Hm.
  destruct hist as [ | r0 t]; [ contradiction | reflexivity ].
Qed.

(** The lookup of one loop iteration yields the matched close. *)
Lemma lookup_matched hist F cp :
  (if negb (in_index F hist) then asof hist F else loc hist F) = Returned cp ->
  matched_close hist F (Close cp).
Proof.
  destruct (in_index F hist) eqn:Hin; cbn [negb]; intros H.
  - left. unfold loc in H.
    destruct (find (fun r => date r =? F) hist) as [r | ] eqn:Hf; [ | discriminate H ].
    inversion H; subst cp. apply find_some in Hf. destruct Hf as [Hr He].
    exists r. split; [ exact Hr | split; [ apply Z.eqb_eq, He | reflexivity ] ].
  - right. split; [ apply in_index_false, Hin | ].
    apply asof_returned in H. destruct H as (Hm & _ & H).
    destruct (asof_scan hist F None) as [r | ] eqn:Hs; subst cp.
    + left. destruct (asof_scan_some hist F None r Hm) as [Hr Hmax];
        [ intros a Ha; discriminate Ha | exact Hs | ].
      destruct Hr as [Hr | (Hr & Hle & Hna)]; [ discriminate Hr | ].
      exists r. repeat split; assumption.
    + right. split; [ | reflexivity ].
      apply (asof_scan_none hist F None Hs).
Qed.

Lemma dict_set_length_le (k : Z) (v : num) d :
  (List.length (dict_set Z.eqb k v d) <= S (List.length d))%nat.
Proof.
  induction d as [ | [k' v'] t IH]; cbn [dict_set].
  - cbn. lia.
  - destruct (k =? k'); cbn [List.length]; lia.
Qed.

Lemma dict_set_fresh (k : Z) (v : num) d :
  List.length (dict_set Z.eqb k v d) = S (List.length d) ->
  dict_set Z.eqb k v d = d ++ [(k, v)].
Proof.
  induction d as [ | [k' v'] t IH]; cbn [dict_set]; intros H.
  - reflexivity.
  - destruct (k =? k'); cbn [List.length] in H.
    + lia.
    + cbn [app]. rewrite IH by lia. reflexivity.
Qed.

Lemma results_loop_length hist dates acc res :
  results_loop hist dates acc = Returned res ->
  (List.length res <= List.length acc + List.length dates)%nat.
Proof.
  revert acc. induction dates as [ | d rest IH]; intros acc H.
  - cbn in H. inversion H. lia.
  - cbn [results_loop] in H.
    destruct (if negb (in_index d hist) then asof hist d else loc hist d)
      as [cp | x]; cbn [obind] in H; [ | discriminate H ].
    apply IH in H.
    pose proof (dict_set_length_le d (Close cp) acc). cbn [List.length]. lia.
Qed.

(** When no key was overwritten, the dictionary holds one matched close per
    date, in the order of the dates. *)
Lemma results_loop_full hist dates acc res :
  results_loop hist dates acc = Returned res ->
  List.length res = (List.length acc + List.length dates)%nat ->
  exists closes,
    Forall2 (matched_close hist) dates closes /\
    res = acc ++ combine dates closes.
Proof.
  revert acc. induction dates as [ | d rest IH]; intros acc H Hlen.
  - cbn in H. inversion H; subst res. exists []. split; [ constructor | ].
    cbn. rewrite app_nil_r. reflexivity.
  - cbn [results_loop] in H.
    destruct (if negb (in_index d hist) then asof hist d else loc hist d)
      as [cp | x] eqn:L; cbn [obind] in H; [ | discriminate H ].
    pose proof (results_loop_length _ _ _ _ H) as Hle.
    pose proof (dict_set_length_le d (Close cp) acc) as Hd.
    cbn [List.length] in Hlen.
    assert (Hfresh : List.length (dict_set Z.eqb d (Close cp) acc)
                     = S (List.length acc)) by lia.
    destruct (IH _ H) as (closes & Hall & Hres); [ lia | ].
    exists (Close cp :: closes). split.
    + constructor; [ apply lookup_matched, L | exact Hall ].
    + rewrite Hres, (dict_set_fresh _ _ _ Hfresh), <- app_assoc. reflexivity.
Qed.

Lemma Forall2_nth_error {A B : Type} (R : A -> B -> Prop) l1 l2 i a :
  Forall2 R l1 l2 -> nth_error l1 i = Some a ->
  exists b, nth_error l2 i = Some b /\ R a b.
Proof.
  intros H. revert i. induction H as [ | x y l1 l2 Hxy Hl IH]; intros i Hi.
  - destruct i; discriminate Hi.
  - destruct i as [ | i]; cbn in Hi |- *.
    + inversion Hi; subst x. exists y. split; [ reflexivity | exact Hxy ].
    + apply IH, Hi.
Qed.

Lemma nth_error_combine_some {A B : Type} (l1 : list A) (l2 : list B) i a b :
  nth_error l1 i = Some a -> nth_error l2 i = Some b ->
  nth_error (combine l1 l2) i = Some (a, b).
Proof.
  revert l2 i. induction l1 as [ | x l1 IH]; intros l2 i H1 H2.
  - destruct i; discriminate H1.
  - destruct l2 as [ | y l2]; [ destruct i; discriminate H2 | ].
    destruct i as [ | i]; cbn in *.
    + inversion H1. inversion H2. reflexivity.
    + apply IH; assumption.
Qed.

Lemma map_snd_combine {A B : Type} (l1 : list A) (l2 : list B) :
  List.length l1 = List.length l2 -> map snd (combine l1 l2) = l2.
Proof.
  revert l2. induction l1 as [ | x l1 IH]; intros [ | y l2] H;
    try discriminate H; cbn.
  - reflexivity.
  - rewrite IH by (cbn in H; lia). reflexivity.
Qed.

Lemma Forall2_length_eq {A B : Type} (R : A -> B -> Prop) l1 l2 :
  Forall2 R l1 l2 -> List.length l1 = List.length l2.
Proof. induction 1; cbn; [ reflexivity | lia ]. Qed.

(** The alignment, when the plotted lists have equal length: one P/E value
    per filing, the matched close over that filing's EPS. *)
Lemma pe_eps_series_aligned hist eps aligned :
  pe_eps_series hist eps = Returned aligned ->
  plot_lengths (fst (fst aligned)) (snd (fst aligned)) = Returned tt ->
  fst (fst aligned) = rev (index eps) /\
  snd aligned = rev (values eps) /\
  List.length (snd (fst aligned)) = List.length eps /\
  (forall i F e,
      nth_error (rev eps) i = Some (F, e) ->
      exists close,
        nth_error (snd (fst aligned)) i = Some (div close e) /\
        matched_close hist F close).
Proof.
  unfold pe_eps_series.
  destruct (results_loop hist (rev (index eps)) []) as [res | x] eqn:L;
    cbn [obind]; intros H Hlen; [ | discriminate H ].
  injection H as H. subst aligned. cbn [fst snd] in Hlen |- *.
  unfold plot_lengths in Hlen.
  destruct (Nat.eqb (List.length (rev (index eps)))
                    (List.length (pe_ratios res eps))) eqn:E;
    [ | discriminate Hlen ].
  apply Nat.eqb_eq in E.
  unfold pe_ratios in E.
  rewrite length_map, length_combine, !length_rev, !length_map in E.
  unfold index, values in E. rewrite !length_map in E.
  pose proof (results_loop_length _ _ _ _ L) as Hle.
  cbn [List.length] in Hle. unfold index in Hle.
  rewrite length_rev, length_map in Hle.
  destruct (results_loop_full _ _ _ _ L) as (closes & Hall & Hres).
  { cbn [List.length]. unfold index. rewrite length_rev, length_map. lia. }
  cbn [app] in Hres.
  pose proof (Forall2_length_eq _ _ _ Hall) as Hcl.
  split; [ reflexivity | split; [ reflexivity | ] ].
  split.
  - unfold pe_ratios. rewrite length_map, length_combine, !length_rev, !length_map.
    unfold values. rewrite length_map. lia.
  - intros i F e Hi.
    assert (HF : nth_error (rev (index eps)) i = Some F).
    { unfold index. rewrite <- map_rev, nth_error_map, Hi. reflexivity. }
    assert (He : nth_error (rev (values eps)) i = Some e).
    { unfold values. rewrite <- map_rev, nth_error_map, Hi. reflexivity. }
    destruct (Forall2_nth_error _ _ _ _ _ Hall HF) as (close & Hc & Hm).
    exists close. split; [ | exact Hm ].
    unfold pe_ratios. rewrite Hres, (map_snd_combine _ _ Hcl), nth_error_map.
    rewrite (nth_error_combine_some _ _ _ _ _ Hc He). reflexivity.
Qed.

(** Division by a zero EPS gives an infinity or NaN. *)
Lemma div_by_zero close q :
  (q == 0)%Q -> div close (Fin q) = PInf \/ div close (Fin q) = NInf
                \/ div close (Fin q) = NaN.
Proof.
  intros Hq.
  assert (Hz : is_zero q = true).
  { unfold is_zero. apply Z.eqb_eq. unfold Qeq in Hq. cbn in Hq. lia. }
  assert (Hn : is_neg q = false).
  { unfold is_neg. apply Z.ltb_ge. unfold Qeq in Hq. cbn in Hq. lia. }
  destruct close as [x | | | ]; cbn [div]; unfold signed.
  - rewrite Hz. destruct (is_zero x); [ auto | ].
    unfold signed. destruct (is_neg x); cbn [neg]; auto.
  - rewrite Hn. auto.
  - rewrite Hn. auto.
  - auto.
Qed.


(** C2, as the claim states it, fails: a filing date earlier than the
    earliest price row still gets a P/E point, with value NaN, so there is
    one point although no filing date has a price row at or before it. *)
Lemma pe_point_kept_for_early_filing :
  let run := get_pe_eps_performance demo_env "EARLY" (DateTime 738000) 4
               (Some "pe.png") demo_world in
  map date (demo_prices "EARLY") = [10; 20; 30] /\
  getitem (demo_income "EARLY") "Diluted EPS" = Returned [(5, of_Z 2)] /\
  fst run = Returned "pe performance chart saved to <img pe.png>" /\
  pe_points (calls (snd run)) = [([5], [NaN])] /\
  filter (fun F => existsb (fun r => date r <=? F) (demo_prices "EARLY")) [5] = [].
Proof.
  repeat split; vm_compute; reflexivity.
Qed.

(** C2, amended.  A returning run of get_pe_eps_performance plots exactly
    one P/E value per filing date, in date order of the reversed EPS index:
    the value for filing date F is close / eps, where close is the close of
    the row dated F if the price index has one, otherwise the close of the
    most recent row at or before F that has no missing value, and NaN if
    there is no such row (so a filing date earlier than every price row
    keeps its point, with value NaN). *)
Theorem pe_asof_join env sym fd years save w s w' :
  get_pe_eps_performance env sym fd years save w = (Returned s, w') ->
  exists d ss start hist eps dates pe,
    filing_datetime env fd = Returned d /\
    get_income_stmt env sym = Returned ss /\
    getitem ss "Diluted EPS" = Returned eps /\
    get_stock_data env sym (strftime env start "%Y-%m-%d")
                   (strftime env d "%Y-%m-%d") = Returned hist /\
    pe_points (calls w') = pe_points (calls w) ++ [(dates, pe)] /\
    dates = rev (index eps) /\
    List.length pe = List.length eps /\
    (forall i F e,
        nth_error (rev eps) i = Some (F, e) ->
        exists close,
          nth_error pe i = Some (div close e) /\
          matched_close hist F close) /\
    (forall i F e,
        nth_error (rev eps) i = Some (F, e) ->
        (forall r, In r hist -> F < date r) ->
        nth_error pe i = Some NaN).
Proof.
  intros H. apply get_pe_eps_performance_returned in H.
  destruct H as (d & ss & eps & start & hist & al & info & name & p & H).
  destruct H as (Hd & Hss & He & _ & _ & Hh & Hal & _ & Hl & _ & _ & _ & _ & _ & Hc).
  destruct (pe_eps_series_aligned _ _ _ Hal Hl) as (Hdates & _ & Hlen & Hnth).
  exists d, ss, start, hist, eps, (fst (fst al)), (snd (fst al)).
  repeat (split; [ assumption | ]).
  split; [ rewrite Hc, pe_points_app; reflexivity | ].
  split; [ exact Hdates | split; [ exact Hlen | split; [ exact Hnth | ] ] ].
  intros i F e Hi Hearly.
  destruct (Hnth i F e Hi) as (close & Hp & Hm).
  assert (Hnan : close = NaN).
  { destruct Hm as [(r & Hr & Hrd & _) | (_ & [(r & Hr & Hle & _) | (_ & Hn)])].
    - specialize (Hearly r Hr). lia.
    - specialize (Hearly r Hr). lia.
    - exact Hn. }
  rewrite Hp, Hnan. reflexivity.
Qed.

Lemma pe_asof_join_witness :
  exists d ss start hist eps dates pe,
    filing_datetime demo_env (DateTime 738000) = Returned d /\
    get_income_stmt demo_env "AAPL" = Returned ss /\
    getitem ss "Diluted EPS" = Returned eps /\
    get_stock_data demo_env "AAPL" (strftime demo_env start "%Y-%m-%d")
                   (strftime demo_env d "%Y-%m-%d") = Returned hist /\
    pe_points
      (calls (snd (get_pe_eps_performance demo_env "AAPL" (DateTime 738000) 4
                     (Some "pe.png") demo_world)))
    = pe_points (calls demo_world) ++ [(dates, pe)] /\
    dates = rev (index eps) /\
    List.length pe = List.length eps /\
    (forall i F e,
        nth_error (rev eps) i = Some (F, e) ->
        exists close,
          nth_error pe i = Some (div close e) /\
          matched_close hist F close) /\
    (forall i F e,
        nth_error (rev eps) i = Some (F, e) ->
        (forall r, In r hist -> F < date r) ->
        nth_error pe i = Some NaN).
Proof.
  apply (pe_asof_join demo_env "AAPL" (DateTime 738000) 4 (Some "pe.png")
           demo_world "pe performance chart saved to <img pe.png>").
  vm_compute. reflexivity.
Defined.

Example pe_points_demo :
  pe_points
    (calls (snd (get_pe_eps_performance demo_env "AAPL" (DateTime 738000) 4
                   (Some "pe.png") demo_world)))
  = [([10; 25; 30], [of_Z 25; of_Z 11; of_Z 15])].
Proof. vm_compute. reflexivity. Qed.




(* ------------------------------------------------------------------ *)
(** * Further properties of the renderers *)

(* ------------------------------------------------------------------ *)
(** ** plot_stock_price_chart: options, printing, global state *)

(** X1.  The [verbose] flag only adds the print of the fetched table, between
    the fetch and the plot: the result is the same with and without it, and
    so are all other calls. *)
Theorem price_chart_verbose_only_prints env sym s e p type style mav nt w :
  let loud := plot_stock_price_chart env sym s e p true type style mav nt w in
  let quiet := plot_stock_price_chart env sym s e p false type style mav nt w in
  fst loud = fst quiet /\
  rcParams (snd loud) = rcParams (snd quiet) /\
  exists ev_loud ev_quiet,
    calls (snd loud) = calls w ++ ev_loud /\
    calls (snd quiet) = calls w ++ ev_quiet /\
    filter (fun c => negb (is_call "print" c)) ev_loud = ev_quiet /\
    filter (is_call "print") ev_quiet = [] /\
    (forall df, get_stock_data env sym s e = Returned df ->
                filter (is_call "print") ev_loud = [Call "print" [VFrame df] []]).
Proof.
  cbv zeta. rewrite !plot_stock_price_chart_run.
  destruct (get_stock_data env sym s e) as [df | x].
  - cbv zeta. destruct (mpf_plot env df _ _) as [[u | x] rc']; cbn [fst snd rcParams calls].
    + split; [ reflexivity | split; [ reflexivity | ] ].
      eexists. eexists. split; [ reflexivity | split; [ reflexivity | ] ].
      split; [ reflexivity | split; [ reflexivity | ] ].
      intros df' H. inversion H. reflexivity.
    + split; [ reflexivity | split; [ reflexivity | ] ].
      eexists. eexists. split; [ reflexivity | split; [ reflexivity | ] ].
      split; [ reflexivity | split; [ reflexivity | ] ].
      intros df' H. inversion H. reflexivity.
  - cbn [fst snd rcParams calls].
    split; [ reflexivity | split; [ reflexivity | ] ].
    eexists. eexists. split; [ reflexivity | split; [ reflexivity | ] ].
    split; [ reflexivity | split; [ reflexivity | ] ].
    intros df' H. discriminate H.
Qed.

(** X2.  The options handed to mpf.plot: none of them is None; the eight options
    other than [mav] are always present with the values computed from the
    arguments; [mav] is present exactly when it is not None, and then
    unchanged. *)
Theorem price_chart_options sym p type style mav nt :
  let kw := filtered_params sym p type style mav nt in
  forallb (fun kv => negb (is_None (snd kv))) kw = true /\
  dict_find String.eqb "type" kw = Some (VStr type) /\
  dict_find String.eqb "style" kw = Some (VStr style) /\
  dict_find String.eqb "title" kw = Some (VStr (sym +++ " " +++ type +++ " chart")) /\
  dict_find String.eqb "ylabel" kw = Some (VStr "Price") /\
  dict_find String.eqb "volume" kw = Some (VBool true) /\
  dict_find String.eqb "ylabel_lower" kw = Some (VStr "Volume") /\
  dict_find String.eqb "show_nontrading" kw = Some (VBool nt) /\
  dict_find String.eqb "savefig" kw = Some (VStr p) /\
  dict_find String.eqb "mav" kw = (if is_None mav then None else Some mav) /\
  List.length kw = (if is_None mav then 8 else 9)%nat.
Proof.
  unfold filtered_params, params. destruct mav; repeat split; reflexivity.
Qed.

(** X3.  The only calls plot_stock_price_chart makes are to the price
    provider, to print and to mpf.plot: at most one of each, in that order,
    and mpf.plot only after the provider has returned.  The function does
    not set matplotlib's rcParams itself: they are as before when the
    provider raises, and otherwise as mpf.plot leaves them, whether it
    returns or raises. *)
Theorem price_chart_calls env sym s e p verbose type style mav nt w :
  let run := plot_stock_price_chart env sym s e p verbose type style mav nt w in
  rcParams (snd run) =
    match get_stock_data env sym s e with
    | Raised _ => rcParams w
    | Returned df =>
        snd (mpf_plot env df (filtered_params sym p type style mav nt) (rcParams w))
    end /\
  exists ev,
    calls (snd run) = calls w ++ ev /\
    map fn ev =
      match get_stock_data env sym s e with
      | Raised _ => ["YFinanceUtils.get_stock_data"]
      | Returned _ =>
          ["YFinanceUtils.get_stock_data"]
            ++ (if verbose then ["print"] else []) ++ ["mpf.plot"]
      end.
Proof.
  cbv zeta. rewrite plot_stock_price_chart_run.
  destruct (get_stock_data env sym s e) as [df | x].
  - cbv zeta. destruct (mpf_plot env df _ _) as [[u | x] rc'];
      cbn [fst snd rcParams calls];
      (split; [ reflexivity | eexists; split; [ reflexivity | ] ]);
      destruct verbose; reflexivity.
  - cbn [snd rcParams calls]. split; [ reflexivity | ].
    eexists. split; reflexivity.
Qed.

(** With the demo collaborators mpf.plot leaves a changed rcParams entry
    behind. *)
Example price_chart_rcParams_demo :
  rcParams (snd (plot_stock_price_chart demo_env "AAPL" "2024-03-01" "2024-04-01"
                   "chart.png" false "candle" "default" VNone false demo_world))
  = [("axes.grid", 1)].
Proof. reflexivity. Qed.

(* ------------------------------------------------------------------ *)
(** ** Calls a computation never makes, or makes only when it returns *)

Lemma silent_lift {A : Type} f (o : outcome A) : silent f (lift o).
Proof. intros w. exists []. cbn. rewrite app_nil_r. split; reflexivity. Qed.

Lemma silent_ret {A : Type} f (a : A) : silent f (ret a).
Proof. exact (silent_lift f (Returned a)). Qed.

Lemma silent_log f name a kw :
  f (Call name a kw) = false -> silent f (log name a kw).
Proof.
  intros Hf w. exists [Call name a kw]. cbn. rewrite Hf. split; reflexivity.
Qed.

Lemma silent_rcParams_update f key v :
  f (Call "plt.rcParams.update" [VDict [(key, v)]] []) = false ->
  silent f (rcParams_update key v).
Proof.
  intros Hf w. exists [Call "plt.rcParams.update" [VDict [(key, v)]] []].
  cbn. rewrite Hf. split; reflexivity.
Qed.

Lemma silent_bind {A B : Type} f (m : M A) (k : A -> M B) :
  silent f m -> (forall a, silent f (k a)) -> silent f (bind m k).
Proof.
  intros Hm Hk w. destruct (Hm w) as (ev & Hev & Hf). unfold bind.
  destruct (m w) as [[a | x] w1]; cbn [snd] in Hev.
  - destruct (Hk a w1) as (ev' & Hev' & Hf').
    exists (ev ++ ev'). rewrite Hev', Hev, app_assoc. split; [ reflexivity | ].
    rewrite forallb_app, Hf, Hf'. reflexivity.
  - exists ev. cbn [snd]. split; assumption.
Qed.

Lemma silent_bind_raised {A B : Type} f (e : PyExc) (k : A -> M B) :
  silent f (bind (lift (Raised e)) k).
Proof. intros w. exists []. cbn. rewrite app_nil_r. split; reflexivity. Qed.

Lemma silent_external {A : Type} f name a kw (answer : outcome A) :
  f (Call name a kw) = false -> silent f (external name a kw answer).
Proof.
  intros Hf. unfold external. apply silent_bind.
  - apply silent_log, Hf.
  - intros _. apply silent_lift.
Qed.

Lemma only_on_return_silent {A : Type} f (m : M A) :
  silent f m -> only_on_return f m.
Proof. intros H w. right. apply H. Qed.

Lemma only_on_return_bind {A B : Type} f (m : M A) (k : A -> M B) :
  silent f m -> (forall a, only_on_return f (k a)) ->
  only_on_return f (bind m k).
Proof.
  intros Hm Hk w. destruct (Hm w) as (ev & Hev & Hf). unfold bind.
  destruct (m w) as [[a | x] w1]; cbn [snd] in Hev.
  - destruct (Hk a w1) as [(b & Hb) | (ev' & Hev' & Hf')].
    + left. exists b. exact Hb.
    + right. exists (ev ++ ev'). rewrite Hev', Hev, app_assoc.
      split; [ reflexivity | ]. rewrite forallb_app, Hf, Hf'. reflexivity.
  - right. exists ev. cbn [snd]. split; assumption.
Qed.

Lemma only_on_return_last {A : Type} f name a kw (s : A) :
  only_on_return f (bind (log name a kw) (fun _ => ret s)).
Proof. intros w. left. exists s. reflexivity. Qed.

Ltac silent_step :=
  match goal with
  | |- silent _ (bind (lift (Raised _)) _) => apply silent_bind_raised
  | |- silent _ (bind _ _) => apply silent_bind; [ | intros ]
  | |- silent _ (lift _) => apply silent_lift
  | |- silent _ (ret _) => apply silent_ret
  | |- silent _ (log _ _ _) => apply silent_log; reflexivity
  | |- silent _ (external _ _ _ _) => apply silent_external; reflexivity
  | |- silent _ (rcParams_update _ _) => apply silent_rcParams_update; reflexivity
  | |- silent _ (if ?b then _ else _) => destruct b
  end.

Lemma silent_fetch_stock_data f env d ticker :
  (forall a kw, f (Call "YFinanceUtils.get_stock_data" a kw) = false) ->
  silent f (fetch_stock_data env d ticker).
Proof.
  intros Hf. unfold fetch_stock_data.
  apply silent_bind; [ apply silent_lift | intros ].
  apply silent_bind; [ apply silent_lift | intros ].
  apply silent_bind; [ apply silent_external, Hf | intros ].
  apply silent_ret.
Qed.

Ltac only_on_return_step :=
  match goal with
  | |- only_on_return _ (bind (log _ _ _) (fun _ => ret _)) =>
      apply only_on_return_last
  | |- only_on_return _ (bind (fetch_stock_data _ _ _) _) =>
      apply only_on_return_bind;
      [ apply silent_fetch_stock_data; intros; reflexivity | intros ]
  | |- only_on_return _ (bind _ _) =>
      apply only_on_return_bind; [ repeat silent_step | intros ]
  end.

Lemma share_close_only_on_return env sym fd save :
  only_on_return (is_call "plt.close") (get_share_performance env sym fd save).
Proof. unfold get_share_performance. repeat only_on_return_step. Qed.

Lemma pe_close_only_on_return env sym fd years save :
  only_on_return (is_call "plt.close") (get_pe_eps_performance env sym fd years save).
Proof. unfold get_pe_eps_performance. repeat only_on_return_step. Qed.

(* ------------------------------------------------------------------ *)
(** ** The report charts and matplotlib's global state *)

(** X4.  A run of a report chart that raises, at whatever point, has not called
    plt.close: a figure it has opened stays open. *)
Theorem report_chart_raise_leaves_figure env sym fd years save osave w :
  (forall e,
      fst (get_share_performance env sym fd save w) = Raised e ->
      exists ev,
        calls (snd (get_share_performance env sym fd save w)) = calls w ++ ev /\
        filter (is_call "plt.close") ev = []) /\
  (forall e,
      fst (get_pe_eps_performance env sym fd years osave w) = Raised e ->
      exists ev,
        calls (snd (get_pe_eps_performance env sym fd years osave w)) = calls w ++ ev /\
        filter (is_call "plt.close") ev = []).
Proof.
  assert (Hfilter : forall ev,
             forallb (fun c => negb (is_call "plt.close" c)) ev = true ->
             filter (is_call "plt.close") ev = []).
  { induction ev as [ | c ev IH]; cbn; [ reflexivity | ].
    destruct (is_call "plt.close" c); cbn; [ discriminate | exact IH ]. }
  split; intros e He.
  - destruct (share_close_only_on_return env sym fd save w)
      as [(a & Ha) | (ev & Hev & Hf)].
    + rewrite Ha in He. discriminate He.
    + exists ev. split; [ exact Hev | apply Hfilter, Hf ].
  - destruct (pe_close_only_on_return env sym fd years osave w)
      as [(a & Ha) | (ev & Hev & Hf)].
    + rewrite Ha in He. discriminate He.
    + exists ev. split; [ exact Hev | apply Hfilter, Hf ].
Qed.

Lemma report_chart_raise_leaves_figure_witness :
  let share := get_share_performance demo_env_unwritable "AAPL" (DateTime 738000)
                 "out.png" demo_world in
  let pe := get_pe_eps_performance demo_env_unwritable "AAPL" (DateTime 738000) 4
              (Some "pe.png") demo_world in
  fst share = Raised (LibraryError "PermissionError") /\
  filter (is_call "plt.figure") (calls (snd share))
    = [Call "plt.figure" [] [("figsize", VInts [14; 7])]] /\
  (exists ev, calls (snd share) = calls demo_world ++ ev /\
              filter (is_call "plt.close") ev = []) /\
  fst pe = Raised (LibraryError "PermissionError") /\
  (exists ev, calls (snd pe) = calls demo_world ++ ev /\
              filter (is_call "plt.close") ev = []).
Proof.
  cbv zeta.
  assert (H1 : fst (get_share_performance demo_env_unwritable "AAPL" (DateTime 738000)
                      "out.png" demo_world) = Raised (LibraryError "PermissionError"))
    by (vm_compute; reflexivity).
  assert (H2 : fst (get_pe_eps_performance demo_env_unwritable "AAPL"
                      (DateTime 738000) 4 (Some "pe.png") demo_world)
               = Raised (LibraryError "PermissionError"))
    by (vm_compute; reflexivity).
  split; [ exact H1 | ].
  split; [ vm_compute; reflexivity | ].
  split; [ exact (proj1 (report_chart_raise_leaves_figure demo_env_unwritable "AAPL"
                           (DateTime 738000) 4 "out.png" (Some "pe.png") demo_world)
                    _ H1) | ].
  split; [ exact H2 | ].
  exact (proj2 (report_chart_raise_leaves_figure demo_env_unwritable "AAPL"
                  (DateTime 738000) 4 "out.png" (Some "pe.png") demo_world) _ H2).
Defined.

Lemma image_targets_none ev :
  forallb (fun c => negb (is_call "plt.savefig" c || is_call "mpf.plot" c)) ev = true ->
  image_targets ev = [].
Proof.
  induction ev as [ | c ev IH]; cbn [forallb]; intros H; [ reflexivity | ].
  apply andb_true_iff in H. destruct H as [Hc Hev].
  apply negb_true_iff, orb_false_iff in Hc. destruct Hc as [H1 H2].
  unfold is_call in H1, H2. unfold image_targets. cbn [flat_map].
  unfold image_target. rewrite H1, H2. apply IH, Hev.
Qed.

Lemma pe_without_save_path_silent env sym fd years :
  silent (fun c => is_call "plt.savefig" c || is_call "mpf.plot" c)
         (get_pe_eps_performance env sym fd years None).
Proof.
  unfold get_pe_eps_performance. cbv beta iota. repeat silent_step.
Qed.

(** X5.  With save_path left at its default, None, get_pe_eps_performance never
    returns and never asks for an image to be written: every run ends in an
    exception. *)
Theorem pe_default_save_path_never_saves env sym fd years w :
  let run := get_pe_eps_performance env sym fd years None w in
  (exists e, fst run = Raised e) /\
  image_targets (calls (snd run)) = image_targets (calls w).
Proof.
  cbv zeta. split.
  - destruct (get_pe_eps_performance env sym fd years None w) as [[s | e] w'] eqn:H.
    + apply get_pe_eps_performance_returned in H.
      destruct H as (d & ss & eps & start & hist & al & info & name & p & H).
      destruct H as (_ & _ & _ & _ & _ & _ & _ & _ & _ & _ & _ & Hp & _).
      discriminate Hp.
    + exists e. reflexivity.
  - destruct (pe_without_save_path_silent env sym fd years w) as (ev & Hev & Hf).
    rewrite Hev, image_targets_app, (image_targets_none _ Hf), app_nil_r.
    reflexivity.
Qed.

Example pe_default_save_path_demo :
  fst (get_pe_eps_performance demo_env "AAPL" (DateTime 738000) 4 None demo_world)
  = Raised TypeError.
Proof. vm_compute. reflexivity. Qed.

(** X6.  A returning run of either report chart leaves matplotlib's global
    font.size at 20, whatever it was before, and every other rcParams entry
    as it was: the setting is not restored. *)
Theorem report_chart_sets_font_size env sym fd years save osave w :
  (forall s w',
      get_share_performance env sym fd save w = (Returned s, w') ->
      dict_find String.eqb "font.size" (rcParams w') = Some 20 /\
      forall key, key <> "font.size" ->
        dict_find String.eqb key (rcParams w') = dict_find String.eqb key (rcParams w)) /\
  (forall s w',
      get_pe_eps_performance env sym fd years osave w = (Returned s, w') ->
      dict_find String.eqb "font.size" (rcParams w') = Some 20 /\
      forall key, key <> "font.size" ->
        dict_find String.eqb key (rcParams w') = dict_find String.eqb key (rcParams w)).
Proof.
  split; intros s w' H.
  - rewrite (get_share_performance_rcParams _ _ _ _ _ _ _ H).
    split; [ apply dict_find_set_same | intros key Hk; apply dict_find_set_other, Hk ].
  - rewrite (get_pe_eps_performance_rcParams _ _ _ _ _ _ _ _ H).
    split; [ apply dict_find_set_same | intros key Hk; apply dict_find_set_other, Hk ].
Qed.

Lemma report_chart_sets_font_size_witness :
  let w := mkWorld [("font.size", 10); ("lines.linewidth", 2)] [] in
  dict_find String.eqb "font.size"
    (rcParams (snd (get_share_performance demo_env "AAPL" (DateTime 738000) "out" w)))
    = Some 20 /\
  dict_find String.eqb "lines.linewidth"
    (rcParams (snd (get_pe_eps_performance demo_env "AAPL" (DateTime 738000) 4
                      (Some "pe.png") w)))
    = Some 2.
Proof.
  cbv zeta. split.
  - refine (proj1 (proj1 (report_chart_sets_font_size demo_env "AAPL" (DateTime 738000)
                            4 "out" (Some "pe.png")
                            (mkWorld [("font.size", 10); ("lines.linewidth", 2)] []))
                     "last year stock performance chart saved to <img out/stock_performance.png>"
                     _ _)).
    vm_compute. reflexivity.
  - refine (proj2 (proj2 (report_chart_sets_font_size demo_env "AAPL" (DateTime 738000)
                            4 "out" (Some "pe.png")
                            (mkWorld [("font.size", 10); ("lines.linewidth", 2)] []))
                     "pe performance chart saved to <img pe.png>" _ _)
                  "lines.linewidth" _).
    + vm_compute. reflexivity.
    + discriminate.
Defined.

(* ------------------------------------------------------------------ *)
(** ** The alignment of prices and filings: when it fails, and its two
    branches *)

Lemma loc_returns hist d :
  in_index d hist = true -> exists r, loc hist d = Returned r.
Proof.
  unfold in_index, loc. intros H. apply existsb_exists in H.
  destruct H as (r & Hr & He).
  destruct (find (fun r0 => date r0 =? d) hist) as [r1 | ] eqn:Hf.
  - exists r1. reflexivity.
  - rewrite (find_none _ _ Hf r Hr) in He. discriminate He.
Qed.

Lemma results_loop_raises_unsorted hist dates acc F :
  is_monotonic_increasing (map date hist) = false ->
  In F dates -> in_index F hist = false ->
  results_loop hist dates acc = Raised (ValueError "asof requires a sorted index").
Proof.
  intros Hm. revert acc. induction dates as [ | d rest IH]; intros acc HF Hin.
  - destruct HF.
  - cbn [results_loop]. destruct (in_index d hist) eqn:Hd; cbn [negb].
    + destruct (loc_returns hist d Hd) as (r & Hr). rewrite Hr. cbn [obind].
      apply IH; [ | exact Hin ].
      destruct HF as [-> | HF]; [ rewrite Hin in Hd; discriminate Hd | exact HF ].
    + unfold asof. rewrite Hm. reflexivity.
Qed.

(** X7.  Two ways in which the alignment step of get_pe_eps_performance
    fails.  When the price index is not sorted and some filing date is
    missing from it, the step raises ValueError: DataFrame.asof is reached
    and refuses an unsorted index.  When the price table has no rows and
    there is at least one filing, it raises IndexError: DataFrame.asof
    reads index[0]. *)
Theorem pe_alignment_failures hist eps :
  (is_monotonic_increasing (map date hist) = false ->
   (exists F, In F (index eps) /\ in_index F hist = false) ->
   pe_eps_series hist eps = Raised (ValueError "asof requires a sorted index")) /\
  (hist = [] -> eps <> [] -> pe_eps_series hist eps = Raised IndexError).
Proof.
  unfold pe_eps_series. split.
  - intros Hm (F & HF & Hin).
    rewrite (results_loop_raises_unsorted hist (rev (index eps)) [] F Hm);
      [ reflexivity | apply in_rev; rewrite rev_involutive; exact HF | exact Hin ].
  - intros -> Hne.
    destruct (rev (index eps)) as [ | d rest] eqn:E.
    + destruct eps as [ | x t]; [ contradiction | ].
      apply (f_equal (@List.length Z)) in E.
      rewrite length_rev in E. discriminate E.
    + reflexivity.
Qed.

Lemma pe_alignment_failures_witness :
  pe_eps_series [demo_row 20 55; demo_row 10 50] [(30, of_Z 3); (20, of_Z 2)]
    = Raised (ValueError "asof requires a sorted index") /\
  pe_eps_series [] [(30, of_Z 3)] = Raised IndexError.
Proof.
  split.
  - apply (proj1 (pe_alignment_failures [demo_row 20 55; demo_row 10 50]
                    [(30, of_Z 3); (20, of_Z 2)])).
    + reflexivity.
    + exists 30. split; [ left; reflexivity | reflexivity ].
  - apply (proj2 (pe_alignment_failures [] [(30, of_Z 3)])).
    + reflexivity.
    + discriminate.
Defined.

Lemma strictly_sorted_monotonic l :
  StronglySorted Z.lt l -> is_monotonic_increasing l = true.
Proof.
  induction 1 as [ | a l Hs IH Hall]; [ reflexivity | ].
  destruct l as [ | b t]; [ reflexivity | ].
  change (is_monotonic_increasing (a :: b :: t))
    with ((a <=? b) && is_monotonic_increasing (b :: t)).
  rewrite IH, andb_true_r.
  apply Z.leb_le. inversion Hall; subst. lia.
Qed.

Lemma strictly_sorted_date_inj hist r r' :
  StronglySorted Z.lt (map date hist) ->
  In r hist -> In r' hist -> date r = date r' -> r = r'.
Proof.
  induction hist as [ | a t IH]; cbn [map]; intros Hs Hr Hr' E; [ destruct Hr | ].
  apply StronglySorted_inv in Hs. destruct Hs as [Hs Hall].
  rewrite Forall_map, Forall_forall in Hall.
  destruct Hr as [-> | Hr]; destruct Hr' as [-> | Hr'].
  - reflexivity.
  - specialize (Hall r' Hr'). lia.
  - specialize (Hall r Hr). lia.
  - apply IH; assumption.
Qed.

(** X8.  On a price table with strictly increasing dates, for a row without a
    missing value, the two branches of the loop agree: the date is found in
    the index, and both df.loc and df.asof at that date give that row. *)
Theorem asof_agrees_with_loc hist r :
  StronglySorted Z.lt (map date hist) ->
  In r hist ->
  row_isna r = false ->
  in_index (date r) hist = true /\
  loc hist (date r) = Returned r /\
  asof hist (date r) = Returned r.
Proof.
  intros Hs Hr Hna.
  assert (Hin : in_index (date r) hist = true).
  { unfold in_index. apply existsb_exists. exists r.
    split; [ exact Hr | apply Z.eqb_refl ]. }
  split; [ exact Hin | split ].
  - unfold loc.
    destruct (find (fun r0 => date r0 =? date r) hist) as [r1 | ] eqn:Hf.
    + apply find_some in Hf. destruct Hf as [H1 E]. apply Z.eqb_eq in E.
      rewrite (strictly_sorted_date_inj hist r1 r Hs H1 Hr E). reflexivity.
    + pose proof (find_none _ _ Hf r Hr) as E. cbn in E.
      rewrite Z.eqb_refl in E. discriminate E.
  - rewrite (asof_sorted hist (date r) (strictly_sorted_monotonic _ Hs))
      by (intros E; rewrite E in Hr; destruct Hr).
    destruct (asof_scan hist (date r) None) as [r0 | ] eqn:Hscan.
    + destruct (asof_scan_some hist (date r) None r0
                  (strictly_sorted_monotonic _ Hs)) as [Hr0 Hmax];
        [ intros a Ha; discriminate Ha | exact Hscan | ].
      destruct Hr0 as [Hr0 | (Hr0 & Hle & _)]; [ discriminate Hr0 | ].
      specialize (Hmax r Hr (Z.le_refl _) Hna).
      rewrite (strictly_sorted_date_inj hist r0 r Hs Hr0 Hr) by lia.
      reflexivity.
    + destruct (asof_scan_none hist (date r) None Hscan) as [_ Hnone].
      rewrite (Hnone r Hr (Z.le_refl _)) in Hna. discriminate Hna.
Qed.

Lemma asof_agrees_with_loc_witness :
  in_index 20 (demo_prices "AAPL") = true /\
  loc (demo_prices "AAPL") 20 = Returned (demo_row 20 55) /\
  asof (demo_prices "AAPL") 20 = Returned (demo_row 20 55).
Proof.
  apply (asof_agrees_with_loc (demo_prices "AAPL") (demo_row 20 55)).
  - repeat constructor.
  - right. left. reflexivity.
  - reflexivity.
Defined.

(** A row with a missing value is where the branches differ: df.loc gives
    the row itself, df.asof skips it. *)
Example asof_skips_incomplete_row :
  let hist := [demo_row 10 50; mkRow 20 (of_Z 55) (of_Z 55) (of_Z 55) (of_Z 55) NaN] in
  loc hist 20 = Returned (mkRow 20 (of_Z 55) (of_Z 55) (of_Z 55) (of_Z 55) NaN) /\
  asof hist 20 = Returned (demo_row 10 50).
Proof. split; reflexivity. Qed.

Lemma dict_set_keys_in (k : Z) (v : num) d x :
  In x (map fst (dict_set Z.eqb k v d)) -> x = k \/ In x (map fst d).
Proof.
  induction d as [ | [k0 v0] t IH]; cbn [dict_set map fst]; intros H.
  - destruct H as [<- | []]. left. reflexivity.
  - destruct (k =? k0) eqn:E; cbn [map fst] in H.
    + destruct H as [<- | H]; [ left; reflexivity | right; right; exact H ].
    + destruct H as [<- | H]; [ right; left; reflexivity | ].
      destruct (IH H) as [-> | Hx]; [ left; reflexivity | right; right; exact Hx ].
Qed.

Lemma dict_set_NoDup (k : Z) (v : num) d :
  NoDup (map fst d) -> NoDup (map fst (dict_set Z.eqb k v d)).
Proof.
  induction d as [ | [k0 v0] t IH]; cbn [dict_set map fst]; intros H.
  - constructor; [ intros [] | constructor ].
  - inversion H as [ | x l Hnin Hnd]; subst.
    destruct (k =? k0) eqn:E; cbn [map fst].
    + apply Z.eqb_eq in E. subst k0. constructor; assumption.
    + apply Z.eqb_neq in E. constructor; [ | apply IH, Hnd ].
      intros Hin. apply dict_set_keys_in in Hin.
      destruct Hin as [-> | Hin]; [ apply E; reflexivity | apply Hnin, Hin ].
Qed.

Lemma results_loop_NoDup hist dates acc res :
  NoDup (map fst acc) ->
  results_loop hist dates acc = Returned res ->
  NoDup (map fst res).
Proof.
  revert acc. induction dates as [ | d rest IH]; intros acc Hnd H.
  - cbn in H. inversion H; subst res. exact Hnd.
  - cbn [results_loop] in H.
    destruct (if negb (in_index d hist) then asof hist d else loc hist d)
      as [cp | x]; cbn [obind] in H; [ | discriminate H ].
    apply (IH _ (dict_set_NoDup d (Close cp) acc Hnd) H).
Qed.

Lemma map_fst_combine {A B : Type} (l1 : list A) (l2 : list B) :
  List.length l1 = List.length l2 -> map fst (combine l1 l2) = l1.
Proof.
  revert l2. induction l1 as [ | x l1 IH]; intros [ | y l2] H;
    try discriminate H; cbn.
  - reflexivity.
  - rewrite IH by (cbn in H; lia). reflexivity.
Qed.

Lemma pe_eps_series_NoDup hist eps aligned :
  pe_eps_series hist eps = Returned aligned ->
  plot_lengths (fst (fst aligned)) (snd (fst aligned)) = Returned tt ->
  NoDup (index eps).
Proof.
  unfold pe_eps_series.
  destruct (results_loop hist (rev (index eps)) []) as [res | x] eqn:L;
    cbn [obind]; intros H Hlen; [ | discriminate H ].
  injection H as H. subst aligned. cbn [fst snd] in Hlen.
  unfold plot_lengths in Hlen.
  destruct (Nat.eqb (List.length (rev (index eps)))
                    (List.length (pe_ratios res eps))) eqn:E;
    [ | discriminate Hlen ].
  apply Nat.eqb_eq in E. unfold pe_ratios in E.
  rewrite length_map, length_combine, !length_rev, !length_map in E.
  unfold index, values in E. rewrite !length_map in E.
  pose proof (results_loop_length _ _ _ _ L) as Hle.
  cbn [List.length] in Hle. unfold index in Hle.
  rewrite length_rev, length_map in Hle.
  destruct (results_loop_full _ _ _ _ L) as (closes & Hall & Hres).
  { cbn [List.length]. unfold index. rewrite length_rev, length_map. lia. }
  cbn [app] in Hres.
  pose proof (results_loop_NoDup hist (rev (index eps)) [] res (NoDup_nil Z) L)
    as Hnd.
  rewrite Hres, (map_fst_combine _ _ (Forall2_length_eq _ _ _ Hall)) in Hnd.
  apply NoDup_rev in Hnd. rewrite rev_involutive in Hnd. exact Hnd.
Qed.

(** X9.  get_pe_eps_performance returns only when the filing dates of the EPS
    line are pairwise distinct: a repeated date makes the dictionary of
    closes shorter than the list of dates, and the plot of one against the
    other raises. *)
Theorem pe_returns_only_for_distinct_filing_dates env sym fd years save w s w' :
  get_pe_eps_performance env sym fd years save w = (Returned s, w') ->
  exists ss eps,
    get_income_stmt env sym = Returned ss /\
    getitem ss "Diluted EPS" = Returned eps /\
    NoDup (index eps).
Proof.
  intros H. apply get_pe_eps_performance_returned in H.
  destruct H as (d & ss & eps & start & hist & al & info & name & p & H).
  destruct H as (_ & Hss & He & _ & _ & _ & Hal & _ & Hl & _).
  exists ss, eps. split; [ exact Hss | split; [ exact He | ] ].
  apply (pe_eps_series_NoDup _ _ _ Hal Hl).
Qed.

Lemma pe_returns_only_for_distinct_filing_dates_witness :
  exists ss eps,
    get_income_stmt demo_env "AAPL" = Returned ss /\
    getitem ss "Diluted EPS" = Returned eps /\
    NoDup (index eps).
Proof.
  apply (pe_returns_only_for_distinct_filing_dates demo_env "AAPL" (DateTime 738000)
           4 (Some "pe.png") demo_world
           "pe performance chart saved to <img pe.png>"
           (snd (get_pe_eps_performance demo_env "AAPL" (DateTime 738000) 4
                   (Some "pe.png") demo_world))).
  vm_compute. reflexivity.
Defined.

(** With a filing date listed twice the run raises at the P/E plot. *)
Example pe_duplicate_filing_date_raises :
  let env := mkEnv (get_stock_data demo_env) (get_stock_info demo_env)
               (fun _ => Returned [("Diluted EPS", [(30, of_Z 3); (30, of_Z 5)])])
               (isdir demo_env) (mpf_plot demo_env) (savefig demo_env)
               (strptime demo_env) (strftime demo_env)
               (Timestamp_strftime demo_env) (DateOffset_months demo_env) in
  fst (get_pe_eps_performance env "AAPL" (DateTime 738000) 4 (Some "pe.png")
         demo_world)
  = Raised (ValueError "x and y must have same first dimension").
Proof. vm_compute. reflexivity. Qed.

(* ------------------------------------------------------------------ *)
(** ** The normalized series: degenerate first close, dates, ticks *)

Lemma mul_100_not_finite x :
  x = PInf \/ x = NInf \/ x = NaN ->
  mul x (of_Z 100) = PInf \/ mul x (of_Z 100) = NInf \/ mul x (of_Z 100) = NaN.
Proof. intros [-> | [-> | ->]]; cbn; auto. Qed.

(** X10.  When the first close of a series is zero or missing (NaN), no value of
    its normalized series is a finite number: with a NaN first close every
    value is NaN, with a zero first close every value is +inf, -inf or
    NaN. *)
Theorem percent_change_degenerate_first s first out :
  iloc0 s = Returned first ->
  first = NaN \/ (exists q, first = Fin q /\ (q == 0)%Q) ->
  percent_change s = Returned out ->
  List.length out = List.length s /\
  (first = NaN -> out = map (fun p => (fst p, NaN)) s) /\
  Forall (fun p => snd p = PInf \/ snd p = NInf \/ snd p = NaN) out.
Proof.
  intros Hfirst Hdeg H. unfold percent_change in H. rewrite Hfirst in H.
  cbn [obind] in H.
  assert (Hout : map (fun p => (fst p, mul (div (sub (snd p) first) first) (of_Z 100)))
                     s = out) by (injection H as H'; exact H').
  subst out. clear H.
  split; [ apply length_map | split ].
  - intros ->. apply map_ext. intros [d c]. cbn [fst snd].
    destruct c; reflexivity.
  - apply Forall_map, Forall_forall. intros [d c] _. cbn [fst snd].
    apply mul_100_not_finite.
    destruct Hdeg as [-> | (q & -> & Hq)].
    + right. right. destruct (sub c NaN); reflexivity.
    + apply div_by_zero, Hq.
Qed.

Lemma percent_change_degenerate_first_witness :
  List.length [(10, NaN); (20, PInf)] = 2%nat /\
  (of_Z 0 = NaN -> [(10, NaN); (20, PInf)]
                   = map (fun p => (fst p, NaN)) [(10, of_Z 0); (20, of_Z 1)]) /\
  Forall (fun p : Z * num => snd p = PInf \/ snd p = NInf \/ snd p = NaN)
         [(10, NaN); (20, PInf)].
Proof.
  apply (percent_change_degenerate_first [(10, of_Z 0); (20, of_Z 1)] (of_Z 0)).
  - reflexivity.
  - right. exists 0%Q. split; reflexivity.
  - reflexivity.
Defined.

Lemma percent_change_index s out :
  percent_change s = Returned out -> index out = index s.
Proof.
  unfold percent_change. destruct (iloc0 s) as [first | e]; cbn [obind]; intros H.
  - assert (Hout : map (fun p => (fst p, mul (div (sub (snd p) first) first) (of_Z 100)))
                       s = out) by (injection H as H'; exact H').
    subst out. unfold index. rewrite map_map. reflexivity.
  - discriminate H.
Qed.

Lemma fold_min_spec l d0 :
  (fold_left Z.min l d0 = d0 \/ In (fold_left Z.min l d0) l) /\
  fold_left Z.min l d0 <= d0 /\
  forall d, In d l -> fold_left Z.min l d0 <= d.
Proof.
  revert d0. induction l as [ | a l IH]; intros d0; cbn [fold_left].
  - split; [ left; reflexivity | split; [ lia | intros d [] ] ].
  - destruct (IH (Z.min d0 a)) as (Hin & Hle & Hall).
    split; [ | split ].
    + destruct Hin as [E | Hin]; [ | right; right; exact Hin ].
      rewrite E. destruct (Z.min_spec d0 a) as [[_ ->] | [_ ->]];
        [ left; reflexivity | right; left; reflexivity ].
    + lia.
    + intros d [<- | Hd]; [ lia | apply Hall, Hd ].
Qed.

Lemma fold_max_spec l d0 :
  (fold_left Z.max l d0 = d0 \/ In (fold_left Z.max l d0) l) /\
  d0 <= fold_left Z.max l d0 /\
  forall d, In d l -> d <= fold_left Z.max l d0.
Proof.
  revert d0. induction l as [ | a l IH]; intros d0; cbn [fold_left].
  - split; [ left; reflexivity | split; [ lia | intros d [] ] ].
  - destruct (IH (Z.max d0 a)) as (Hin & Hle & Hall).
    split; [ | split ].
    + destruct Hin as [E | Hin]; [ | right; right; exact Hin ].
      rewrite E. destruct (Z.max_spec d0 a) as [[_ ->] | [_ ->]];
        [ right; left; reflexivity | left; reflexivity ].
    + lia.
    + intros d [<- | Hd]; [ lia | apply Hall, Hd ].
Qed.

Lemma index_min_max_spec s :
  s <> [] ->
  In (index_min s) (index s) /\ In (index_max s) (index s) /\
  forall d, In d (index s) -> index_min s <= d <= index_max s.
Proof.
  intros Hs. unfold index_min, index_max.
  destruct s as [ | [d0 c0] rest]; [ contradiction | ].
  cbn [index map fst].
  destruct (fold_min_spec (map fst rest) d0) as (Hmin & Hmin0 & Hminall).
  destruct (fold_max_spec (map fst rest) d0) as (Hmax & Hmax0 & Hmaxall).
  split; [ | split ].
  - destruct Hmin as [-> | H]; [ left; reflexivity | right; exact H ].
  - destruct Hmax as [-> | H]; [ left; reflexivity | right; exact H ].
  - intros d [<- | Hd].
    + lia.
    + specialize (Hminall d Hd). specialize (Hmaxall d Hd). lia.
Qed.

(** X11.  The x-axis ticks of the relative-performance chart are taken from the
    symbol's own rows, not from the benchmark's or from the requested
    window: the first tick is the earliest and the last tick the latest date
    among the rows fetched for the symbol, and the two ticks between them
    are the first one moved on by 4 and by 8 months. *)
Theorem share_ticks_span_symbol_dates env sym fd save w s w' :
  get_share_performance env sym fd save w = (Returned s, w') ->
  exists d start target t_first t_last ev,
    filing_datetime env fd = Returned d /\
    datetime_sub d 365 = Returned start /\
    get_stock_data env sym (strftime env start "%Y-%m-%d")
                   (strftime env d "%Y-%m-%d") = Returned target /\
    calls w' = calls w ++ ev /\
    filter (is_call "plt.xticks") ev =
      [Call "plt.xticks"
            [VTimes [t_first; DateOffset_months env t_first 4;
                     DateOffset_months env t_first 8; t_last];
             VStrs [Timestamp_strftime env t_first "%Y-%m";
                    Timestamp_strftime env (DateOffset_months env t_first 4) "%Y-%m";
                    Timestamp_strftime env (DateOffset_months env t_first 8) "%Y-%m";
                    Timestamp_strftime env t_last "%Y-%m"]] []] /\
    In t_first (map date target) /\
    In t_last (map date target) /\
    (forall r, In r target -> t_first <= date r <= t_last).
Proof.
  intros H. apply get_share_performance_returned in H.
  destruct H as (d & start & target & sp & info & name & cc & sc & H).
  destruct H as (Hd & Hs & Ht & _ & _ & _ & Hcc & _ & _ & _ & Hc).
  assert (Hidx : index cc = map date target).
  { rewrite (percent_change_index _ _ Hcc). unfold index, column_Close.
    rewrite map_map. reflexivity. }
  assert (Hne : cc <> []).
  { intros ->. unfold percent_change in Hcc.
    destruct (column_Close target) as [ | [d0 c0] rest]; [ discriminate Hcc | ].
    cbn in Hcc. discriminate Hcc. }
  destruct (index_min_max_spec cc Hne) as (Hmin & Hmax & Hall).
  rewrite Hidx in Hmin, Hmax.
  exists d, start, target, (index_min cc), (index_max cc). eexists.
  repeat (split; [ assumption | ]).
  split; [ exact Hc | ].
  split; [ reflexivity | ].
  split; [ exact Hmin | split; [ exact Hmax | ] ].
  intros r Hr. apply Hall. rewrite Hidx. apply in_map, Hr.
Qed.

Lemma share_ticks_span_symbol_dates_witness :
  exists d start target t_first t_last ev,
    filing_datetime demo_env (DateTime 738000) = Returned d /\
    datetime_sub d 365 = Returned start /\
    get_stock_data demo_env "AAPL" (strftime demo_env start "%Y-%m-%d")
                   (strftime demo_env d "%Y-%m-%d") = Returned target /\
    calls (snd (get_share_performance demo_env "AAPL" (DateTime 738000) "out"
                  demo_world)) = calls demo_world ++ ev /\
    filter (is_call "plt.xticks") ev =
      [Call "plt.xticks"
            [VTimes [t_first; DateOffset_months demo_env t_first 4;
                     DateOffset_months demo_env t_first 8; t_last];
             VStrs [Timestamp_strftime demo_env t_first "%Y-%m";
                    Timestamp_strftime demo_env (DateOffset_months demo_env t_first 4)
                                       "%Y-%m";
                    Timestamp_strftime demo_env (DateOffset_months demo_env t_first 8)
                                       "%Y-%m";
                    Timestamp_strftime demo_env t_last "%Y-%m"]] []] /\
    In t_first (map date target) /\
    In t_last (map date target) /\
    (forall r, In r target -> t_first <= date r <= t_last).
Proof.
  apply (share_ticks_span_symbol_dates demo_env "AAPL" (DateTime 738000) "out"
           demo_world
           "last year stock performance chart saved to <img out/stock_performance.png>").
  vm_compute. reflexivity.
Defined.

(* ------------------------------------------------------------------ *)
(** ** Failures of the provider and of the income statement *)

Lemma bind_lift_returned {A B : Type} (a : A) (k : A -> M B) w :
  bind (lift (Returned a)) k w = k a w.
Proof. reflexivity. Qed.

Lemma bind_lift_raised {A B : Type} (e : PyExc) (k : A -> M B) w :
  bind (lift (Raised e)) k w = (Raised e, w).
Proof. reflexivity. Qed.

Lemma bind_external_returned {A B : Type} f a kw (x : A) (k : A -> M B) w :
  bind (external f a kw (Returned x)) k w
  = k x (mkWorld (rcParams w) (calls w ++ [Call f a kw])).
Proof. reflexivity. Qed.

Lemma fetch_stock_data_raised env d ticker w start e :
  datetime_sub d 365 = Returned start ->
  get_stock_data env ticker (strftime env start "%Y-%m-%d")
                 (strftime env d "%Y-%m-%d") = Raised e ->
  fetch_stock_data env d ticker w =
  (Raised e, mkWorld (rcParams w) (calls w ++ [window_fetch env ticker start d])).
Proof.
  intros Hs Hf. unfold fetch_stock_data, external, bind, lift, log, ret.
  rewrite timedelta_365, Hs. simpl. rewrite Hf. reflexivity.
Qed.

(** X12.  When the provider raises for the symbol's price history,
    get_share_performance raises the same exception at once: the benchmark
    is not requested, the company information is not fetched, rcParams are
    untouched and nothing is plotted. *)
Theorem share_symbol_fetch_failure env sym fd save w d start e :
  filing_datetime env fd = Returned d ->
  datetime_sub d 365 = Returned start ->
  get_stock_data env sym (strftime env start "%Y-%m-%d")
                 (strftime env d "%Y-%m-%d") = Raised e ->
  get_share_performance env sym fd save w =
  (Raised e, mkWorld (rcParams w) (calls w ++ [window_fetch env sym start d])).
Proof.
  intros Hd Hs Hf. unfold get_share_performance.
  unfold bind at 1. unfold lift at 1. rewrite Hd.
  unfold bind at 1. rewrite (fetch_stock_data_raised _ _ _ _ _ _ Hs Hf).
  reflexivity.
Qed.

Lemma share_symbol_fetch_failure_witness :
  get_share_performance demo_env_offline "AAPL" (DateTime 738000) "out" demo_world
  = (Raised (LibraryError "ConnectionError"),
     mkWorld (rcParams demo_world)
       (calls demo_world ++ [window_fetch demo_env_offline "AAPL" 737635 738000])).
Proof.
  apply (share_symbol_fetch_failure demo_env_offline "AAPL" (DateTime 738000) "out"
           demo_world 738000 737635 (LibraryError "ConnectionError"));
    reflexivity.
Defined.

(** X13.  When the income statement has no "Diluted EPS" line,
    get_pe_eps_performance raises KeyError("Diluted EPS") right after
    fetching the statement: no price history is requested and nothing is
    plotted. *)
Theorem pe_missing_eps_line env sym fd years save w d ss :
  filing_datetime env fd = Returned d ->
  get_income_stmt env sym = Returned ss ->
  dict_find String.eqb "Diluted EPS" ss = None ->
  get_pe_eps_performance env sym fd years save w =
  (Raised (KeyError "Diluted EPS"),
   mkWorld (rcParams w)
           (calls w ++ [Call "YFinanceUtils.get_income_stmt" [VStr sym] []])).
Proof.
  intros Hd Hss Hnone.
  assert (Hget : getitem ss "Diluted EPS" = Raised (KeyError "Diluted EPS"))
    by (unfold getitem; rewrite Hnone; reflexivity).
  unfold get_pe_eps_performance.
  rewrite Hd, bind_lift_returned. cbv beta.
  rewrite Hss, bind_external_returned. cbv beta.
  rewrite Hget, bind_lift_raised. reflexivity.
Qed.

Lemma pe_missing_eps_line_witness :
  let env := mkEnv (get_stock_data demo_env) (get_stock_info demo_env)
               (fun _ => Returned [("Total Revenue", [(30, of_Z 900)])])
               (isdir demo_env) (mpf_plot demo_env) (savefig demo_env)
               (strptime demo_env) (strftime demo_env)
               (Timestamp_strftime demo_env) (DateOffset_months demo_env) in
  get_pe_eps_performance env "AAPL" (DateStr "2024-05-01") 4 (Some "pe.png")
    demo_world
  = (Raised (KeyError "Diluted EPS"),
     mkWorld (rcParams demo_world)
       (calls demo_world ++ [Call "YFinanceUtils.get_income_stmt" [VStr "AAPL"] []])).
Proof.
  cbv zeta.
  apply (pe_missing_eps_line _ "AAPL" (DateStr "2024-05-01") 4 (Some "pe.png")
           demo_world 738000 [("Total Revenue", [(30, of_Z 900)])]);
    reflexivity.
Defined.

(* ------------------------------------------------------------------ *)
(** ** The length of the price window *)

(** X14.  Each further year of lookback lengthens the price window of
    get_pe_eps_performance by 365 or 366 days: for k >= 0,
    round((years + k + 1) * 365.25) - round((years + 1) * 365.25) lies
    between 365 * k and 366 * k. *)
Theorem lookback_days_step years k :
  0 <= k ->
  365 * k <= lookback_days (years + k) - lookback_days years <= 366 * k.
Proof.
  intros Hk. destruct (Z.eq_dec k 0) as [-> | Hk0].
  - rewrite Z.add_0_r. lia.
  - unfold lookback_days.
    destruct (round_half_even_nearest ((years + k + 1) * 1461)) as [H1 _].
    destruct (round_half_even_nearest ((years + 1) * 1461)) as [H2 _].
    lia.
Qed.

Lemma lookback_days_step_witness :
  365 * 3 <= lookback_days (1 + 3) - lookback_days 1 <= 366 * 3.
Proof. apply (lookback_days_step 1 3). lia. Defined.

(* ------------------------------------------------------------------ *)
(** ** A company without a short name *)

Lemma bind_log f a kw {B : Type} (k : unit -> M B) w :
  bind (log f a kw) k w = k tt (mkWorld (rcParams w) (calls w ++ [Call f a kw])).
Proof. reflexivity. Qed.

Lemma bind_rcParams_update key v {B : Type} (k : unit -> M B) w :
  bind (rcParams_update key v) k w
  = k tt (mkWorld (dict_set String.eqb key v (rcParams w))
                  (calls w ++ [Call "plt.rcParams.update" [VDict [(key, v)]] []])).
Proof. reflexivity. Qed.

Lemma bind_fetch_stock_data env d ticker start df {B : Type} (k : Series -> M B) w :
  datetime_sub d 365 = Returned start ->
  get_stock_data env ticker (strftime env start "%Y-%m-%d")
                 (strftime env d "%Y-%m-%d") = Returned df ->
  bind (fetch_stock_data env d ticker) k w
  = k (column_Close df)
      (mkWorld (rcParams w) (calls w ++ [window_fetch env ticker start d])).
Proof.
  intros Hs Hf. unfold bind at 1.
  rewrite (fetch_stock_data_run _ _ _ _ _ _ Hs Hf). reflexivity.
Qed.

(** X15.  When the company information has no "shortName" entry although both
    price histories have rows, get_share_performance raises
    KeyError("shortName") only after it has changed font.size and opened the
    figure: nothing is drawn or saved, and the figure is left open. *)
Theorem share_missing_short_name env sym fd save w d start target sp info :
  filing_datetime env fd = Returned d ->
  datetime_sub d 365 = Returned start ->
  get_stock_data env sym (strftime env start "%Y-%m-%d")
                 (strftime env d "%Y-%m-%d") = Returned target ->
  get_stock_data env "^GSPC" (strftime env start "%Y-%m-%d")
                 (strftime env d "%Y-%m-%d") = Returned sp ->
  get_stock_info env sym = Returned info ->
  target <> [] -> sp <> [] ->
  dict_find String.eqb "shortName" info = None ->
  get_share_performance env sym fd save w =
  (Raised (KeyError "shortName"),
   mkWorld (dict_set String.eqb "font.size" 20 (rcParams w))
     (calls w ++
        [window_fetch env sym start d; window_fetch env "^GSPC" start d;
         Call "YFinanceUtils.get_stock_info" [VStr sym] [];
         Call "plt.rcParams.update" [VDict [("font.size", 20)]] [];
         Call "plt.figure" [] [("figsize", VInts [14; 7])]])).
Proof.
  intros Hd Hs Ht Hsp Hi Hnt Hnsp Hnone.
  assert (Hget : getitem info "shortName" = Raised (KeyError "shortName"))
    by (unfold getitem; rewrite Hnone; reflexivity).
  assert (Hcc : exists cc, percent_change (column_Close target) = Returned cc).
  { destruct target as [ | r t]; [ contradiction | ]. eexists. reflexivity. }
  assert (Hsc : exists sc, percent_change (column_Close sp) = Returned sc).
  { destruct sp as [ | r t]; [ contradiction | ]. eexists. reflexivity. }
  destruct Hcc as (cc & Hcc). destruct Hsc as (sc & Hsc).
  unfold get_share_performance.
  rewrite Hd, bind_lift_returned. cbv beta.
  rewrite (bind_fetch_stock_data _ _ _ _ _ _ _ Hs Ht). cbv beta.
  rewrite (bind_fetch_stock_data _ _ _ _ _ _ _ Hs Hsp). cbv beta.
  rewrite Hi, bind_external_returned. cbv beta.
  rewrite Hcc, bind_lift_returned. cbv beta.
  rewrite Hsc, bind_lift_returned. cbv beta zeta.
  rewrite bind_rcParams_update, bind_log. cbv beta.
  rewrite Hget, bind_lift_raised.
  cbn [rcParams calls]. rewrite <- !app_assoc. reflexivity.
Qed.

Lemma share_missing_short_name_witness :
  let env := mkEnv (get_stock_data demo_env) (fun _ => Returned [("symbol", "AAPL")])
               (get_income_stmt demo_env) (isdir demo_env) (mpf_plot demo_env)
               (savefig demo_env) (strptime demo_env) (strftime demo_env)
               (Timestamp_strftime demo_env) (DateOffset_months demo_env) in
  fst (get_share_performance env "AAPL" (DateTime 738000) "out" demo_world)
  = Raised (KeyError "shortName").
Proof.
  cbv zeta.
  rewrite (share_missing_short_name _ "AAPL" (DateTime 738000) "out" demo_world
             738000 737635 (demo_prices "AAPL") (demo_prices "^GSPC")
             [("symbol", "AAPL")]);
    try reflexivity; discriminate.
Defined.
